(** * Budget tracker: session gate and dashboard store

    A shallow embedding of the two stateful React components of the
    budget tracker front end:

    - [AuthContext] (the [AuthProvider] component): the session token, the
      [isAuthenticated] flag and the [localStorage] entry that persists the
      token;
    - [Dashboard] (the [BudgetTracker] component): the month selection, the
      fetched summary, transactions, budgets and months, the draft budgets,
      and the asynchronous fetch and save functions.

    JavaScript numbers are IEEE 754 binary64 values and are modelled by the
    primitive floats of Rocq, whose operations are the binary64 ones.
    Objects whose key order is observable ([Object.values], [Object.entries])
    are association lists in iteration order; objects used only as
    dictionaries are finite maps.  An [async] function is split at its
    [await]: the part that runs when it is called, which sends a request,
    and the part that runs when the request settles.  The markup and the
    formatting of numbers are left out. *)

From Stdlib Require Import ZArith String List Bool Floats Lia Permutation.
From stdpp Require Import base option gmap strings.
Import ListNotations.

Local Open Scope string_scope.
Local Open Scope list_scope.

(** ** JavaScript values *)

(** [if (s)] on a string: the empty string is falsy, any other is truthy. *)
Definition truthy (s : string) : bool :=
  match s with
  | EmptyString => false
  | String _ _ => true
  end.

(** ** AuthContext.tsx *)

Module AuthContext.

(** The key of [localStorage] that holds the token. *)
Definition access_token : string := "access_token".

(** The two [useState] cells of [AuthProvider] together with the browser's
    [localStorage], which outlives the component. *)
Record Session : Type := mkSession {
  isAuthenticated : bool;
  token : option string;
  localStorage : gmap string string
}.

(** A freshly mounted provider: [useState(false)], [useState(null)]. *)
Definition initial (storage : gmap string string) : Session :=
  {| isAuthenticated := false; token := None; localStorage := storage |}.

(** The mount effect: [localStorage.getItem] yields [null] for a missing
    key, and [if (savedToken)] also rejects the empty string. *)
Definition restoreSession (s : Session) : Session :=
  match localStorage s !! access_token with
  | Some savedToken =>
      if truthy savedToken
      then {| isAuthenticated := true;
              token := Some savedToken;
              localStorage := localStorage s |}
      else s
  | None => s
  end.

Definition login (newToken : string) (s : Session) : Session :=
  {| isAuthenticated := true;
     token := Some newToken;
     localStorage := <[access_token := newToken]> (localStorage s) |}.

Definition logout (s : Session) : Session :=
  {| isAuthenticated := false;
     token := None;
     localStorage := delete access_token (localStorage s) |}.

(** The header object is a dictionary; [if (token)] is false for [null]
    and for the empty string. *)
Definition getAuthHeaders (s : Session) : gmap string string :=
  let headers : gmap string string :=
    {[ "Content-Type" := "application/json" ]} in
  match token s with
  | Some t =>
      if truthy t
      then <["Authorization" := "Bearer " +:+ t]> headers
      else headers
  | None => headers
  end.

(** The two states of the session gate, read off the flag. *)
Inductive Gate : Type := Unauthenticated | Authenticated.

Definition gate (s : Session) : Gate :=
  if isAuthenticated s then Authenticated else Unauthenticated.

(** What the user and the page life cycle can do to a session. *)
Inductive Op : Type :=
| OpRestore
| OpLogin (newToken : string)
| OpLogout.

Definition apply (o : Op) (s : Session) : Session :=
  match o with
  | OpRestore => restoreSession s
  | OpLogin t => login t s
  | OpLogout => logout s
  end.

Definition run (ops : list Op) (s : Session) : Session :=
  fold_left (fun acc o => apply o acc) ops s.

(** A login with the empty string is the one way to raise the flag without
    a usable token. *)
Definition usableLogin (o : Op) : Prop :=
  match o with
  | OpLogin t => t <> ""
  | _ => True
  end.

(** The flag and the token agree: the flag is up exactly when a non-empty
    token is held. *)
Definition coherent (s : Session) : Prop :=
  (isAuthenticated s = true /\ exists t, token s = Some t /\ t <> "") \/
  (isAuthenticated s = false /\ token s = None).

End AuthContext.

(** ** Dashboard.tsx: data *)

Module Dashboard.

Local Open Scope float_scope.

Record Transaction : Type := mkTransaction {
  ID : Z;
  Date : string;
  Transaction_Name : string;
  Category : string;
  Amount : string + float;
  Account_Type : string
}.

Record CategorySummary : Type := mkCategorySummary {
  spent : float;
  budget : float;
  remaining : float;
  percentage_used : float;
  transactions_count : Z;
  over_budget : bool
}.

(** [interface Budgets { [category: string]: number }]: only ever read by
    key, spread and replaced. *)
Abbreviation Budgets := (gmap string float).

(** [interface Summary { [category: string]: CategorySummary }]: the
    entries in the order [Object.values] and [Object.entries] visit them,
    which for category names is the order of the keys in the reply. *)
Definition Summary : Type := list (string * CategorySummary).

Definition Object_values (o : Summary) : list CategorySummary := map snd o.

Module Totals.
Record t : Type := mk {
  totalSpent : float;
  totalBudget : float;
  remaining : float
}.
End Totals.

(** [Array.prototype.reduce(callback, initialValue)]. *)
Definition reduce {A B : Type} (callback : B -> A -> B) (initialValue : B)
    (array : list A) : B :=
  fold_left callback array initialValue.

(** The value [calculateTotals] hands to [setTotals]. *)
Definition totalsOf (summaryData : Summary) : Totals.t :=
  let totalSpent :=
    reduce (fun sum category => sum + spent category) 0
           (Object_values summaryData) in
  let totalBudget :=
    reduce (fun sum category => sum + budget category) 0
           (Object_values summaryData) in
  let remaining := totalBudget - totalSpent in
  Totals.mk totalSpent totalBudget remaining.

Definition getProgressColor (percentage : float) : string :=
  if percentage <=? 70 then "bg-green-500"
  else if percentage <=? 90 then "bg-yellow-500"
  else "bg-red-500".







(** *** The component state *)

Record Store : Type := mkStore {
  currentMonth : string;
  summary : Summary;
  transactions : list Transaction;
  budgets : Budgets;
  availableMonths : list string;
  loading : bool;
  activeTab : string;
  editingBudgets : bool;
  tempBudgets : Budgets;
  editingTransaction : option Z;
  totals : Totals.t
}.

(** [new Date().toISOString().slice(0, 7)] and the other [useState]
    initial values; [isoNow] is the ISO timestamp of the clock. *)
Definition initialStore (isoNow : string) : Store :=
  {| currentMonth := substring 0 7 isoNow;
     summary := [];
     transactions := [];
     budgets := ∅;
     availableMonths := [];
     loading := false;
     activeTab := "dashboard";
     editingBudgets := false;
     tempBudgets := ∅;
     editingTransaction := None;
     totals := Totals.mk 0 0 0 |}.

(** *** Requests and replies *)

(** A request that has been sent and not yet settled, with the variables
    its continuation closes over.  A closure sees the state of the render
    that created it, so [currentMonth] and [tempBudgets] are the values at
    the time of the call, not at the time of the reply. *)
Inductive Pending : Type :=
| AwaitSummary (month : string)
| AwaitTransactions (month : string)
| AwaitBudgets
| AwaitMonths (closureMonth : string)
| AwaitCategoryUpdate (transactionId : Z) (newCategory : string)
                      (closureMonth : string)
| AwaitBudgetSave (closureTemp : Budgets) (closureMonth : string).

(** How [await fetch(...)] followed by [await response.json()] can end:
    the promise rejects, the response is not [ok], or it is [ok] with a
    body that parses ([Some]) or does not ([None]). *)
Inductive Reply (A : Type) : Type :=
| Rejected
| NotOk (status : Z)
| Ok200 (json : option A).
Arguments Rejected {A}.
Arguments NotOk {A} status.
Arguments Ok200 {A} json.

(** The body of a [PUT]: [{ success: boolean }]. *)
Record WriteResult : Type := mkWriteResult { success : bool }.

(** What leaves the component: a request, an [alert], a [console.error]. *)
Inductive Effect : Type :=
| Send (p : Pending)
| Alert (message : string)
| ConsoleError (label : string).

Definition sent (out : list Effect) : list Pending :=
  omap (fun e => match e with Send p => Some p | _ => None end) out.

Definition alerts (out : list Effect) : list string :=
  omap (fun e => match e with Alert m => Some m | _ => None end) out.

(** *** Commands: state passing with an output log *)

Definition Act : Type := Store -> Store * list Effect.

Definition skip : Act := fun st => (st, []).

Definition andThen (a b : Act) : Act := fun st =>
  let '(st1, out1) := a st in
  let '(st2, out2) := b st1 in
  (st2, out1 ++ out2).

Definition withStore (f : Store -> Act) : Act := fun st => f st st.

Definition emit (e : Effect) : Act := fun st => (st, [e]).

Definition modify (f : Store -> Store) : Act := fun st => (f st, []).

(** *** State setters *)

Definition setCurrentMonth (v : string) : Act := modify (fun st =>
  mkStore v (summary st) (transactions st) (budgets st) (availableMonths st)
    (loading st) (activeTab st) (editingBudgets st) (tempBudgets st)
    (editingTransaction st) (totals st)).

Definition setSummary (v : Summary) : Act := modify (fun st =>
  mkStore (currentMonth st) v (transactions st) (budgets st)
    (availableMonths st) (loading st) (activeTab st) (editingBudgets st)
    (tempBudgets st) (editingTransaction st) (totals st)).

(** [setTransactions(prev => f(prev))]; a plain value is the constant
    function. *)
Definition setTransactions (f : list Transaction -> list Transaction) : Act :=
  modify (fun st =>
  mkStore (currentMonth st) (summary st) (f (transactions st)) (budgets st)
    (availableMonths st) (loading st) (activeTab st) (editingBudgets st)
    (tempBudgets st) (editingTransaction st) (totals st)).

Definition setBudgets (v : Budgets) : Act := modify (fun st =>
  mkStore (currentMonth st) (summary st) (transactions st) v
    (availableMonths st) (loading st) (activeTab st) (editingBudgets st)
    (tempBudgets st) (editingTransaction st) (totals st)).

Definition setAvailableMonths (v : list string) : Act := modify (fun st =>
  mkStore (currentMonth st) (summary st) (transactions st) (budgets st) v
    (loading st) (activeTab st) (editingBudgets st) (tempBudgets st)
    (editingTransaction st) (totals st)).

Definition setLoading (v : bool) : Act := modify (fun st =>
  mkStore (currentMonth st) (summary st) (transactions st) (budgets st)
    (availableMonths st) v (activeTab st) (editingBudgets st)
    (tempBudgets st) (editingTransaction st) (totals st)).

Definition setActiveTab (v : string) : Act := modify (fun st =>
  mkStore (currentMonth st) (summary st) (transactions st) (budgets st)
    (availableMonths st) (loading st) v (editingBudgets st)
    (tempBudgets st) (editingTransaction st) (totals st)).

Definition setEditingBudgets (v : bool) : Act := modify (fun st =>
  mkStore (currentMonth st) (summary st) (transactions st) (budgets st)
    (availableMonths st) (loading st) (activeTab st) v
    (tempBudgets st) (editingTransaction st) (totals st)).

(** [setTempBudgets(prev => f(prev))]. *)
Definition setTempBudgets (f : Budgets -> Budgets) : Act := modify (fun st =>
  mkStore (currentMonth st) (summary st) (transactions st) (budgets st)
    (availableMonths st) (loading st) (activeTab st) (editingBudgets st)
    (f (tempBudgets st)) (editingTransaction st) (totals st)).

Definition setEditingTransaction (v : option Z) : Act := modify (fun st =>
  mkStore (currentMonth st) (summary st) (transactions st) (budgets st)
    (availableMonths st) (loading st) (activeTab st) (editingBudgets st)
    (tempBudgets st) v (totals st)).

Definition setTotals (v : Totals.t) : Act := modify (fun st =>
  mkStore (currentMonth st) (summary st) (transactions st) (budgets st)
    (availableMonths st) (loading st) (activeTab st) (editingBudgets st)
    (tempBudgets st) (editingTransaction st) v).

Infix ">>" := andThen (at level 61, left associativity).

(** *** The asynchronous functions, up to their [await] *)

Definition fetchSummary (month : string) : Act :=
  setLoading true >> emit (Send (AwaitSummary month)).

Definition fetchTransactions (month : string) : Act :=
  emit (Send (AwaitTransactions month)).

Definition fetchBudgets : Act := emit (Send AwaitBudgets).

Definition fetchAvailableMonths : Act :=
  withStore (fun st => emit (Send (AwaitMonths (currentMonth st)))).

Definition updateTransactionCategory (transactionId : Z)
    (newCategory : string) : Act :=
  withStore (fun st =>
    emit (Send (AwaitCategoryUpdate transactionId newCategory
                                    (currentMonth st)))).

Definition saveBudgets : Act :=
  withStore (fun st =>
    emit (Send (AwaitBudgetSave (tempBudgets st) (currentMonth st)))).

(** *** The same functions from the [await] on

    Everything but an [ok] response with a parsed body throws inside the
    [try] and lands in the [catch]. *)

Definition fetchSummary_settled (r : Reply Summary) : Act :=
  match r with
  | Ok200 (Some data) => setSummary data >> setLoading false
  | _ => emit (ConsoleError "Error fetching summary:") >> setLoading false
  end.

Definition fetchTransactions_settled (r : Reply (list Transaction)) : Act :=
  match r with
  | Ok200 (Some data) => setTransactions (fun _ => data)
  | _ => emit (ConsoleError "Error fetching transactions:")
  end.

Definition fetchBudgets_settled (r : Reply Budgets) : Act :=
  match r with
  | Ok200 (Some data) => setBudgets data >> setTempBudgets (fun _ => data)
  | _ => emit (ConsoleError "Error fetching budgets:")
  end.

Definition fetchAvailableMonths_settled (closureMonth : string)
    (r : Reply (list string)) : Act :=
  match r with
  | Ok200 (Some data) =>
      setAvailableMonths data >>
      if String.eqb closureMonth "" && (0 <? length data)%nat
      then match data !! 0%nat with
           | Some newest => setCurrentMonth newest
           | None => skip
           end
      else skip
  | _ => emit (ConsoleError "Error fetching months:")
  end.

(** [{ ...t, Category: newCategory }]. *)
Definition withCategory (newCategory : string) (t : Transaction)
    : Transaction :=
  mkTransaction (ID t) (Date t) (Transaction_Name t) newCategory (Amount t)
                (Account_Type t).

Definition updateTransactionCategory_settled (transactionId : Z)
    (newCategory closureMonth : string) (r : Reply WriteResult) : Act :=
  match r with
  | Ok200 (Some result) =>
      if success result
      then setTransactions
             (map (fun t => if (ID t =? transactionId)%Z
                            then withCategory newCategory t else t)) >>
           setEditingTransaction None >>
           fetchSummary closureMonth
      else skip
  | _ => emit (ConsoleError "Error updating category:") >>
         emit (Alert "Failed to update category. Please try again.")
  end.

Definition saveBudgets_settled (closureTemp : Budgets)
    (closureMonth : string) (r : Reply WriteResult) : Act :=
  match r with
  | Ok200 (Some result) =>
      if success result
      then setBudgets closureTemp >>
           setEditingBudgets false >>
           fetchSummary closureMonth >>
           emit (Alert "Budgets updated successfully")
      else skip
  | _ => emit (ConsoleError "Error saving budgets:") >>
         emit (Alert "Failed to update budgets. Please try again.")
  end.

(** *** Effects and event handlers *)

Definition calculateTotals (summaryData : Summary) : Act :=
  setTotals (totalsOf summaryData).

(** [useEffect(..., [currentMonth])]. *)
Definition monthEffect : Act :=
  withStore (fun st =>
    fetchSummary (currentMonth st) >>
    fetchTransactions (currentMonth st) >>
    fetchBudgets >>
    fetchAvailableMonths).

(** [useEffect(..., [summary])]. *)
Definition summaryEffect : Act :=
  withStore (fun st => calculateTotals (summary st)).

(** After the first render both effects run, in the order written. *)
Definition mount : Act := monthEffect >> summaryEffect.

(** One turn of the event loop: the handler runs, the component renders
    again, and the effects whose dependency changed run.  [currentMonth] is
    compared as a string.  [summary] is compared by reference, which the
    model does not have: the summary effect is run on every turn, and on a
    store whose totals are those of its summary it changes nothing
    (lemma [summaryEffect_idle]). *)
Definition turn (handler : Act) : Act := fun st =>
  let '(st1, out1) := handler st in
  let '(st2, out2) :=
    (if String.eqb (currentMonth st1) (currentMonth st)
     then skip else monthEffect) st1 in
  let '(st3, out3) := summaryEffect st2 in
  (st3, out1 ++ out2 ++ out3).

(** [parseFloat(e.target.value) || 0] given the parsed number: [0], [-0] and
    [NaN] are falsy. *)
Definition or_zero (parsed : float) : float :=
  if is_nan parsed || is_zero parsed then 0 else parsed.

(** The month [<select>]. *)
Definition selectMonth (month : string) : Act := setCurrentMonth month.

(** The budget tab: Edit, Cancel and the number inputs. *)
Definition beginBudgetEdit : Act := setEditingBudgets true.

Definition cancelBudgetEdit : Act :=
  withStore (fun st => setTempBudgets (fun _ => budgets st)) >>
  setEditingBudgets false.

Definition changeDraft (category : string) (parsed : float) : Act :=
  setTempBudgets (fun prev => <[category := or_zero parsed]> prev).

(** *** The component as a transition system *)

(** The reply to a request, by the kind of body it carries. *)
Inductive Settlement : Type :=
| SummaryReply (r : Reply Summary)
| TransactionsReply (r : Reply (list Transaction))
| BudgetsReply (r : Reply Budgets)
| MonthsReply (r : Reply (list string))
| WriteReply (r : Reply WriteResult).

(** The continuation a reply wakes up; a reply of the wrong kind for the
    request is outside the typed model. *)
Definition resume (p : Pending) (s : Settlement) : option Act :=
  match p, s with
  | AwaitSummary _, SummaryReply r => Some (fetchSummary_settled r)
  | AwaitTransactions _, TransactionsReply r =>
      Some (fetchTransactions_settled r)
  | AwaitBudgets, BudgetsReply r => Some (fetchBudgets_settled r)
  | AwaitMonths closureMonth, MonthsReply r =>
      Some (fetchAvailableMonths_settled closureMonth r)
  | AwaitCategoryUpdate transactionId newCategory closureMonth, WriteReply r =>
      Some (updateTransactionCategory_settled transactionId newCategory
                                              closureMonth r)
  | AwaitBudgetSave closureTemp closureMonth, WriteReply r =>
      Some (saveBudgets_settled closureTemp closureMonth r)
  | _, _ => None
  end.

Inductive Event : Type :=
| SelectMonth (month : string)
| SwitchTab (tab : string)
| StartTransactionEdit (transactionId : Z)
| CancelTransactionEdit
| ChooseCategory (transactionId : Z) (newCategory : string)
| BeginBudgetEdit
| CancelBudgetEdit
| ChangeDraft (category : string) (parsed : float)
| ClickSave
| Settle (i : nat) (s : Settlement).

(** The store, the requests in flight in the order they were sent, and
    everything emitted so far. *)
Record Config : Type := mkConfig {
  store : Store;
  inflight : list Pending;
  output : list Effect
}.

Definition boot (isoNow : string) : Config :=
  let '(st, out) := mount (initialStore isoNow) in
  mkConfig st (sent out) out.

(** The handler of a user event. *)
Definition onEvent (e : Event) : Act :=
  match e with
  | SelectMonth month => selectMonth month
  | SwitchTab tab => setActiveTab tab
  | StartTransactionEdit transactionId =>
      setEditingTransaction (Some transactionId)
  | CancelTransactionEdit => setEditingTransaction None
  | ChooseCategory transactionId newCategory =>
      updateTransactionCategory transactionId newCategory
  | BeginBudgetEdit => beginBudgetEdit
  | CancelBudgetEdit => cancelBudgetEdit
  | ChangeDraft category parsed => changeDraft category parsed
  | ClickSave => saveBudgets
  | Settle _ _ => skip
  end.

(** One event: a user event runs its handler; [Settle i s] settles the
    [i]-th request in flight, which need not be the oldest. *)
Definition step (e : Event) (c : Config) : option Config :=
  match e with
  | Settle i s =>
      p ← inflight c !! i;
      k ← resume p s;
      let '(st, out) := turn k (store c) in
      Some (mkConfig st (delete i (inflight c) ++ sent out) (output c ++ out))
  | _ =>
      let '(st, out) := turn (onEvent e) (store c) in
      Some (mkConfig st (inflight c ++ sent out) (output c ++ out))
  end.

Fixpoint run (events : list Event) (c : Config) : option Config :=
  match events with
  | [] => Some c
  | e :: rest => c' ← step e c; run rest c'
  end.

(** Reading a transaction's category off the list, as the table does. *)
Definition categoryOf (transactionId : Z) (l : list Transaction)
    : option string :=
  Category <$> List.find (fun t => (ID t =? transactionId)%Z) l.

(** The store after the summary effect: the totals are those of the
    summary, every other cell is as before. *)
Definition retotal (st : Store) : Store := (summaryEffect st).1.

(** The replies that end in the [catch]. *)
Definition failed {A : Type} (r : Reply A) : bool :=
  match r with
  | Ok200 (Some _) => false
  | _ => true
  end.

(** A write is confirmed by an [ok] response whose body has a true
    [success]. *)
Definition confirmed (r : Reply WriteResult) : bool :=
  match r with
  | Ok200 (Some result) => success result
  | _ => false
  end.

End Dashboard.

(** ** Dashboard.tsx: charts, tables and the budget inputs *)

Module Charts.
Import Dashboard.
Local Open Scope float_scope.

Definition COLORS : list string :=
  ["#8884d8"; "#82ca9d"; "#ffc658"; "#ff7300"; "#00ff88";
   "#ff0088"; "#8800ff"; "#00ffff"; "#ff8800"; "#8888ff"].

Module PieChartData.
(** [COLORS[i]] is [undefined] out of range, hence the option. *)
Record t : Type := mk {
  name : string;
  value : float;
  color : option string
}.
End PieChartData.

Module BarChartData.
Record t : Type := mk {
  category : string;
  budget : float;
  spent : float
}.
End BarChartData.

(** [Object.entries(summary).map(([category, data], index) => ...)]. *)
Definition pieChartData (summary : Summary) : list PieChartData.t :=
  imap (fun index '(category, data) =>
          PieChartData.mk category (spent data)
            (COLORS !! (index mod length COLORS)%nat))
       summary.

(** Strings are sequences of code units; [length] and [substring] count
    them. *)
Definition barChartData (summary : Summary) : list BarChartData.t :=
  map (fun '(category, data) =>
         BarChartData.mk
           (if (10 <? String.length category)%nat
            then substring 0 10 category +:+ "..."
            else category)
           (budget data) (spent data))
      summary.

(** The class of the percentage text in a row of the category breakdown,
    which stands beside the bar coloured by [getProgressColor]. *)
Definition rowTextColor (data : CategorySummary) : string :=
  if 100 <? percentage_used data then "text-red-600"
  else if 90 <? percentage_used data then "text-yellow-600"
  else "text-green-600".




End Charts.

(** ** Dashboard.tsx: the file upload *)

From stdpp Require Import pretty.

Module Upload.
Import Dashboard.

Module UploadResult.
(** The body of the upload reply; [error] is absent on success.  The
    counts are integers; up to 2^53 in magnitude the numbers of the source
    hold them exactly and print them in decimal. *)
Record t : Type := mk {
  success : bool;
  total_transactions : Z;
  new_transactions : Z;
  error : option string
}.
End UploadResult.

(** The upload in flight: the form data and the month its continuation
    closes over. *)
Record UploadPending : Type := mkUploadPending {
  file : string;
  account_type : string;
  closureMonth : string
}.

(** How the upload can end.  A rejected [fetch] throws a value that is an
    [Error] with a message or is not an [Error] at all; [response.json()]
    throws an [Error] with a message ([inl]) or yields the parsed body
    ([inr]); of an error body only its [error] field is read. *)
Inductive UploadReply : Type :=
| FetchRejected (error : option string)
| ResponseNotOk (status : Z) (errorData : string + option string)
| ResponseOk (result : string + UploadResult.t).

(** [x || fallback] on a string that may be missing. *)
Definition or_else (x : option string) (fallback : string) : string :=
  match x with
  | Some m => if truthy m then m else fallback
  | None => fallback
  end.

(** [handleFileUpload] up to its [await]: without a file it returns at
    once. *)
Definition handleFileUpload (files : list string) (accountType : string)
    (st : Store) : Store * option UploadPending :=
  match files with
  | [] => (st, None)
  | file :: _ =>
      ((setLoading true st).1,
       Some (mkUploadPending file accountType (currentMonth st)))
  end.

(** What the [try] block ends in: the message of the success alert, or the
    value thrown. *)
Definition uploadOutcome (r : UploadReply) : string + option string :=
  match r with
  | FetchRejected error => inr error
  | ResponseNotOk status (inl message) => inr (Some message)
  | ResponseNotOk status (inr error) =>
      inr (Some (or_else error ("HTTP error! Status: " +:+ pretty status)))
  | ResponseOk (inl message) => inr (Some message)
  | ResponseOk (inr result) =>
      if UploadResult.success result
      then inl ("Success! Processed "
                +:+ pretty (UploadResult.total_transactions result)
                +:+ " transactions, added "
                +:+ pretty (UploadResult.new_transactions result)
                +:+ " new ones.")
      else inr (Some (or_else (UploadResult.error result)
                              "Unknown error occurred"))
  end.

(** [handleFileUpload] from the [await] on.  The three fetches are the
    closures of the render of the upload, so the months fetch closes over
    the month of that render too.  [fetchSummary] raises the loading flag
    before the [finally] lowers it. *)
Definition handleFileUpload_settled (closureMonth : string)
    (r : UploadReply) : Act :=
  match uploadOutcome r with
  | inl message =>
      emit (Alert message) >>
      fetchSummary closureMonth >>
      fetchTransactions closureMonth >>
      emit (Send (AwaitMonths closureMonth)) >>
      setLoading false
  | inr (Some message) =>
      emit (Alert ("Upload failed: " +:+ message)) >> setLoading false
  | inr None =>
      emit (Alert "Upload failed with unknown error") >> setLoading false
  end.

End Upload.

(** ** App.tsx *)

Module App.
Import AuthContext Dashboard.

(** Memory and storage agree: an authenticated session holds the non-empty
    token that is persisted, and an unauthenticated one holds none while
    nothing, or the empty string, is persisted. *)
Definition synced (s : Session) : Prop :=
  (isAuthenticated s = true /\
   exists t, token s = Some t /\ t <> "" /\
             localStorage s !! access_token = Some t) \/
  (isAuthenticated s = false /\ token s = None /\
   (localStorage s !! access_token = None \/
    localStorage s !! access_token = Some "")).

(** What [AppContent] renders. *)
Inductive Screen : Type := LoginScreen | TrackerScreen.

Definition AppContent (s : Session) : Screen :=
  if negb (isAuthenticated s) then LoginScreen else TrackerScreen.

(** The provider, the mounted [BudgetTracker] while [AppContent] renders
    one, and the trackers that were unmounted.  A component that is no
    longer rendered loses its state, and one that is rendered anew starts
    from its initial state and runs its mount effects.  Unmounting aborts
    nothing: the requests of an unmounted tracker stay in flight and
    their continuations run when they settle. *)
Record State : Type := mkState {
  session : Session;
  tracker : option Config;
  unmounted : list Config
}.

(** The tracker after a render with session [s]; [isoNow] is the clock,
    read if the tracker mounts. *)
Definition render (isoNow : string) (s : Session) (mounted : option Config)
    : option Config :=
  match AppContent s with
  | LoginScreen => None
  | TrackerScreen =>
      match mounted with
      | Some c => Some c
      | None => Some (boot isoNow)
      end
  end.

(** The unmounted trackers after that render. *)
Definition retire (s : Session) (mounted : option Config)
    (old : list Config) : list Config :=
  match AppContent s, mounted with
  | LoginScreen, Some c => old ++ [c]
  | _, _ => old
  end.

(** A reply to the [i]-th request of an unmounted tracker.  The
    continuation runs as written: its alerts, its logs and the requests
    it sends happen; its setters do nothing, and no effect runs since
    nothing renders, so the store stays as it was at the unmount. *)
Definition settleUnmounted (i : nat) (s : Settlement) (c : Config)
    : option Config :=
  p ← inflight c !! i;
  k ← resume p s;
  let out := (k (store c)).2 in
  Some (mkConfig (store c) (delete i (inflight c) ++ sent out)
                 (output c ++ out)).

(** [handleLogout] is [logout]; [Login] calls [login]; the provider's mount
    effect is [restoreSession].  [Late z i s] settles a request of the
    [z]-th unmounted tracker. *)
Inductive Event : Type :=
| Auth (o : Op) (isoNow : string)
| Tracker (e : Dashboard.Event)
| Late (z i : nat) (s : Settlement).

(** A page load: the provider mounts unauthenticated, shows the login
    screen, and its mount effect runs. *)
Definition load (storage : gmap string string) (isoNow : string) : State :=
  let s := restoreSession (initial storage) in
  mkState s (render isoNow s None) [].

(** An event of the tracker needs a mounted tracker. *)
Definition step (e : Event) (a : State) : option State :=
  match e with
  | Auth o isoNow =>
      let s := AuthContext.apply o (session a) in
      Some (mkState s (render isoNow s (tracker a))
                    (retire s (tracker a) (unmounted a)))
  | Tracker e =>
      c ← tracker a;
      c' ← Dashboard.step e c;
      Some (mkState (session a) (Some c') (unmounted a))
  | Late z i s =>
      c ← unmounted a !! z;
      c' ← settleUnmounted i s c;
      Some (mkState (session a) (tracker a) (<[z := c']> (unmounted a)))
  end.

Fixpoint run (events : list Event) (a : State) : option State :=
  match events with
  | [] => Some a
  | e :: rest => a' ← step e a; run rest a'
  end.

End App.

(** ** Dashboard.tsx: the reads on the body as it is parsed

    [response.json()] yields whatever JSON value the body holds, and the
    setters take it without a check: at run time a state cell holds a JSON
    value, of the declared type or not.  This section embeds the four read
    functions from their [await] on over such cells. *)

Module Json.
#[local] Unset Elimination Schemes.
Inductive t : Type :=
| Null
| Bool (b : bool)
| Num (x : float)
| Str (s : string)
| Arr (items : list t)
| Obj (entries : list (string * t)).
#[local] Set Elimination Schemes.
End Json.

Module RawReads.
Import Dashboard.
Local Open Scope float_scope.

(** A JavaScript value that may be [undefined] ([None]). *)
Definition JsValue : Type := option Json.t.

(** The cells the reads write, as they are at run time. *)
Record RawStore : Type := mkRawStore {
  rawCurrentMonth : JsValue;
  rawSummary : Json.t;
  rawTransactions : Json.t;
  rawBudgets : Json.t;
  rawTempBudgets : Json.t;
  rawAvailableMonths : Json.t;
  rawLoading : bool
}.

Definition rawInitialStore (isoNow : string) : RawStore :=
  mkRawStore (Some (Json.Str (substring 0 7 isoNow)))
             (Json.Obj []) (Json.Arr []) (Json.Obj []) (Json.Obj [])
             (Json.Arr []) false.

Definition fetchSummary_raw (r : Reply Json.t) (st : RawStore)
    : RawStore * list Effect :=
  match r with
  | Ok200 (Some data) =>
      (mkRawStore (rawCurrentMonth st) data (rawTransactions st)
                  (rawBudgets st) (rawTempBudgets st)
                  (rawAvailableMonths st) false,
       [])
  | _ =>
      (mkRawStore (rawCurrentMonth st) (rawSummary st) (rawTransactions st)
                  (rawBudgets st) (rawTempBudgets st)
                  (rawAvailableMonths st) false,
       [ConsoleError "Error fetching summary:"])
  end.

Definition fetchTransactions_raw (r : Reply Json.t) (st : RawStore)
    : RawStore * list Effect :=
  match r with
  | Ok200 (Some data) =>
      (mkRawStore (rawCurrentMonth st) (rawSummary st) data
                  (rawBudgets st) (rawTempBudgets st)
                  (rawAvailableMonths st) (rawLoading st),
       [])
  | _ => (st, [ConsoleError "Error fetching transactions:"])
  end.

Definition fetchBudgets_raw (r : Reply Json.t) (st : RawStore)
    : RawStore * list Effect :=
  match r with
  | Ok200 (Some data) =>
      (mkRawStore (rawCurrentMonth st) (rawSummary st) (rawTransactions st)
                  data data (rawAvailableMonths st) (rawLoading st),
       [])
  | _ => (st, [ConsoleError "Error fetching budgets:"])
  end.

(** An own property of a parsed object. *)
Definition own (key : string) (entries : list (string * Json.t)) : JsValue :=
  snd <$> List.find (fun e => String.eqb e.1 key) entries.

(** The test of [currentMonth] against the empty string with [===]. *)
Definition is_empty_string (v : JsValue) : bool :=
  match v with
  | Some (Json.Str s) => String.eqb s ""
  | _ => false
  end.

(** [data[0]]: the first element of an array, the first code unit of a
    string, the property [0] of an object, and [undefined] of a number or
    a boolean. *)
Definition index0 (data : Json.t) : JsValue :=
  match data with
  | Json.Arr items => head items
  | Json.Str (String a _) => Some (Json.Str (String a ""))
  | Json.Obj entries => own "0" entries
  | _ => None
  end.

Section Comparison.

(** The number a string, an array or an object converts to when it is
    compared with a number: left open. *)
Variable ToNumberOther : Json.t -> float.

Definition ToNumber (v : Json.t) : float :=
  match v with
  | Json.Num x => x
  | Json.Null => 0
  | Json.Bool b => if b then 1 else 0
  | _ => ToNumberOther v
  end.

(** [data.length > 0]: [None] when reading [length] throws, which it does
    of [null]; a number and a boolean have no [length], a string and an
    array have their own, an object has the property it was given. *)
Definition length_positive (data : Json.t) : option bool :=
  match data with
  | Json.Null => None
  | Json.Bool _ | Json.Num _ => Some false
  | Json.Str s => Some (negb (String.eqb s ""))
  | Json.Arr items => Some (match items with [] => false | _ => true end)
  | Json.Obj entries =>
      Some (match own "length" entries with
            | Some v => 0 <? ToNumber v
            | None => false
            end)
  end.

(** [closureMonth] is the [currentMonth] of the closure.  The months are
    stored before the test, and [&&] reads [data.length] only when the
    month is the empty string. *)
Definition fetchAvailableMonths_raw (closureMonth : JsValue)
    (r : Reply Json.t) (st : RawStore) : RawStore * list Effect :=
  match r with
  | Ok200 (Some data) =>
      let st1 :=
        mkRawStore (rawCurrentMonth st) (rawSummary st) (rawTransactions st)
                   (rawBudgets st) (rawTempBudgets st) data (rawLoading st) in
      if is_empty_string closureMonth
      then match length_positive data with
           | None => (st1, [ConsoleError "Error fetching months:"])
           | Some true =>
               (mkRawStore (index0 data) (rawSummary st1)
                           (rawTransactions st1) (rawBudgets st1)
                           (rawTempBudgets st1) (rawAvailableMonths st1)
                           (rawLoading st1),
                [])
           | Some false => (st1, [])
           end
      else (st1, [])
  | _ => (st, [ConsoleError "Error fetching months:"])
  end.

End Comparison.

(** *** Bodies of the declared type *)

Definition encodeMonths (months : list string) : Json.t :=
  Json.Arr (map Json.Str months).

Definition encodeBudgets (b : Budgets) : Json.t :=
  Json.Obj (map (fun e => (e.1, Json.Num e.2)) (map_to_list b)).

Definition mapReply {A B : Type} (f : A -> B) (r : Reply A) : Reply B :=
  match r with
  | Rejected => Rejected
  | NotOk status => NotOk status
  | Ok200 json => Ok200 (f <$> json)
  end.

Section View.

(** How a summary and a transaction list are written as JSON is left
    open; the reads do not look into them. *)
Variable encodeSummary : Summary -> Json.t.
Variable encodeTransactions : list Transaction -> Json.t.

(** The typed store seen cell by cell. *)
Definition view (st : Store) : RawStore :=
  mkRawStore (Some (Json.Str (currentMonth st)))
             (encodeSummary (summary st))
             (encodeTransactions (transactions st))
             (encodeBudgets (budgets st))
             (encodeBudgets (tempBudgets st))
             (encodeMonths (availableMonths st))
             (loading st).

End View.

End RawReads.

(** * Properties of the session gate *)

Section SessionGate.
Import AuthContext.

Lemma truthy_nonempty (s : string) : truthy s = true <-> s <> "".
Proof. destruct s; simpl; split; congruence. Qed.

Lemma truthy_empty (s : string) : truthy s = false <-> s = "".
Proof. destruct s; simpl; split; congruence. Qed.

Lemma coherent_initial storage : coherent (initial storage).
Proof. right. split; reflexivity. Qed.

Lemma coherent_apply (o : Op) (s : Session) :
  usableLogin o -> coherent s -> coherent (apply o s).
Proof.
  intros Ho Hs. destruct o as [|t|]; simpl in *.
  - unfold restoreSession.
    destruct (localStorage s !! access_token) as [saved|] eqn:E; [|exact Hs].
    destruct (truthy saved) eqn:T; [|exact Hs].
    left. simpl. split; [reflexivity|].
    exists saved. split; [reflexivity|]. now apply truthy_nonempty.
  - left. simpl. split; [reflexivity|]. now exists t.
  - right. split; reflexivity.
Qed.

Lemma coherent_run (ops : list Op) : forall s : Session,
  Forall usableLogin ops -> coherent s -> coherent (run ops s).
Proof.
  unfold run. induction ops as [|o ops IH]; intros s Hall Hs; simpl.
  - exact Hs.
  - inversion Hall as [|? ? Ho Hrest]; subst.
    apply IH; [exact Hrest|]. now apply coherent_apply.
Qed.

Lemma getAuthHeaders_lookup (s : Session) (v : string) :
  getAuthHeaders s !! "Authorization" = Some v <->
  exists t, token s = Some t /\ t <> "" /\ v = "Bearer " +:+ t.
Proof.
  unfold getAuthHeaders. destruct (token s) as [t|].
  - destruct (truthy t) eqn:T.
    + rewrite lookup_insert_eq. split.
      * intros [= <-]. exists t. split; [reflexivity|].
        split; [now apply truthy_nonempty|reflexivity].
      * intros (u & [= <-] & _ & ->). reflexivity.
    + apply truthy_empty in T. subst t. split.
      * intros H. rewrite lookup_singleton_ne in H by discriminate.
        discriminate.
      * intros (u & [= <-] & Hne & _). now destruct Hne.
  - split.
    + intros H. rewrite lookup_singleton_ne in H by discriminate.
      discriminate.
    + intros (u & Hu & _). discriminate.
Qed.

(** C8, as stated, fails after [login ""]: the session is authenticated and
    a token is stored, and yet no [Authorization] header is produced. *)
Lemma getAuthHeaders_empty_token_no_header :
  let s := login "" (initial ∅) in
  isAuthenticated s = true /\ token s = Some "" /\
  getAuthHeaders s !! "Authorization" = None /\
  ~ (is_Some (getAuthHeaders s !! "Authorization") <->
     isAuthenticated s = true).
Proof.
  simpl. repeat split; try reflexivity.
  intros [_ H]. destruct (H eq_refl) as [v Hv]. vm_compute in Hv.
  discriminate Hv.
Qed.

(** C8 (amended).  [getAuthHeaders] is a function of the session alone and
    returns a fresh dictionary, so it has no effect on the session.  Its
    result always carries the content type, and carries an [Authorization]
    entry exactly when a non-empty token is stored, the entry being
    [Bearer] followed by that token.  On every session reached from a fresh
    provider by restores, logouts and logins with a non-empty token, that is
    exactly when the session is authenticated. *)
Theorem getAuthHeaders_bearer (s : Session) :
  (forall v, getAuthHeaders s !! "Authorization" = Some v <->
     exists t, token s = Some t /\ t <> "" /\ v = "Bearer " +:+ t) /\
  getAuthHeaders s !! "Content-Type" = Some "application/json" /\
  (forall ops storage,
     s = run ops (initial storage) -> Forall usableLogin ops ->
     (is_Some (getAuthHeaders s !! "Authorization") <->
      isAuthenticated s = true)).
Proof.
  split; [intros v; apply getAuthHeaders_lookup|]. split.
  - unfold getAuthHeaders. destruct (token s) as [t|]; [destruct (truthy t)|].
    + rewrite lookup_insert_ne by discriminate. apply lookup_singleton_eq.
    + apply lookup_singleton_eq.
    + apply lookup_singleton_eq.
  - intros ops storage -> Hall.
    pose proof (coherent_run ops (initial storage) Hall
                  (coherent_initial storage)) as Hc.
    set (s := run ops (initial storage)) in *. split.
    + intros [v Hv]. apply getAuthHeaders_lookup in Hv.
      destruct Hv as (t & Ht & _ & _).
      destruct Hc as [[Hflag _]|[_ Hnone]]; [exact Hflag|congruence].
    + intros Hflag.
      destruct Hc as [[_ (t & Ht & Hne)]|[Hoff _]]; [|congruence].
      exists ("Bearer " +:+ t). apply getAuthHeaders_lookup. now exists t.
Qed.

Lemma getAuthHeaders_bearer_witness :
  let s := run [OpLogin "t0k3n"; OpLogout; OpRestore; OpLogin "n3wt0k3n"]
               (initial ∅) in
  is_Some (getAuthHeaders s !! "Authorization") <-> isAuthenticated s = true.
Proof.
  intros s.
  refine (proj2 (proj2 (getAuthHeaders_bearer s)) _ ∅ eq_refl _).
  repeat constructor; discriminate.
Defined.

(** C9, as stated, fails on a persisted empty token, which [login ""]
    leaves behind: after a reload a persisted token exists, and the restore
    leaves the session unauthenticated. *)
Lemma restoreSession_empty_token_stays_out :
  let reloaded := initial (localStorage (login "" (initial ∅))) in
  is_Some (localStorage reloaded !! access_token) /\
  gate reloaded = Unauthenticated /\
  gate (restoreSession reloaded) = Unauthenticated.
Proof.
  simpl. split; [|split; reflexivity].
  exists "". reflexivity.
Qed.

(** C9 (amended).  The gate has the two states [Unauthenticated] and
    [Authenticated].  [login] leads from any state to [Authenticated],
    holds the token and persists it; [logout] leads from any state to
    [Unauthenticated], holds no token and erases the persisted one;
    [restoreSession] never touches the storage, leads to [Authenticated]
    with the persisted token when a non-empty one is persisted, and changes
    nothing when none or the empty one is; so from [Unauthenticated] it
    reaches [Authenticated] exactly when a non-empty token is persisted.
    The three operations are functions of the session and the storage: none
    of them sends a request. *)
Theorem session_gate_transitions (s : Session) :
  (forall t,
     gate (login t s) = Authenticated /\
     token (login t s) = Some t /\
     localStorage (login t s) !! access_token = Some t /\
     (forall k, k <> access_token ->
        localStorage (login t s) !! k = localStorage s !! k)) /\
  (gate (logout s) = Unauthenticated /\
   token (logout s) = None /\
   localStorage (logout s) !! access_token = None /\
   (forall k, k <> access_token ->
      localStorage (logout s) !! k = localStorage s !! k)) /\
  (localStorage (restoreSession s) = localStorage s /\
   (forall t, localStorage s !! access_token = Some t -> t <> "" ->
      gate (restoreSession s) = Authenticated /\
      token (restoreSession s) = Some t) /\
   (localStorage s !! access_token = None \/
    localStorage s !! access_token = Some "" -> restoreSession s = s) /\
   (gate s = Unauthenticated ->
    (gate (restoreSession s) = Authenticated <->
     exists t, localStorage s !! access_token = Some t /\ t <> ""))).
Proof.
  split; [|split].
  - intros t. cbn. repeat split.
    + apply lookup_insert_eq.
    + intros k Hk. now apply lookup_insert_ne.
  - cbn. repeat split.
    + apply lookup_delete_eq.
    + intros k Hk. now apply lookup_delete_ne.
  - unfold restoreSession, gate.
    destruct (localStorage s !! access_token) as [saved|] eqn:E.
    + destruct (truthy saved) eqn:T.
      * apply truthy_nonempty in T. cbn.
        split; [reflexivity|]. split; [|split].
        -- intros t [= <-] _. split; reflexivity.
        -- intros [H|[= H]]; [discriminate|]. now destruct T.
        -- intros _. split; [intros _|reflexivity]. now exists saved.
      * apply truthy_empty in T. subst saved.
        split; [reflexivity|]. split; [|split].
        -- intros t [= <-] Hne. now destruct Hne.
        -- reflexivity.
        -- intros Hs. rewrite Hs. split; [discriminate|].
           intros (t & [= <-] & Hne). now destruct Hne.
    + split; [reflexivity|]. split; [|split].
      * discriminate.
      * reflexivity.
      * intros Hs. rewrite Hs. split; [discriminate|].
        intros (t & Ht & _). discriminate.
Qed.

Lemma session_gate_transitions_witness :
  let reloaded := initial (localStorage (login "t0k3n" (initial ∅))) in
  gate (restoreSession reloaded) = Authenticated /\
  token (restoreSession reloaded) = Some "t0k3n".
Proof.
  intros reloaded.
  refine (proj1 (proj2 (proj2 (proj2 (session_gate_transitions reloaded))))
            "t0k3n" _ _).
  - reflexivity.
  - discriminate.
Defined.

End SessionGate.

(** * Properties of the dashboard store *)

Section Store.
Import Dashboard.

(** ** Turns of the event loop *)

Lemma summaryEffect_idle (st : Store) :
  totals st = totalsOf (summary st) -> summaryEffect st = (st, []).
Proof.
  intros H. destruct st.
  unfold summaryEffect, withStore, calculateTotals, setTotals, modify.
  cbn [summary totals] in *. now rewrite <- H.
Qed.

Lemma retotal_totals (st : Store) : totals (retotal st) = totalsOf (summary st).
Proof. reflexivity. Qed.

Lemma retotal_idem (st : Store) : retotal (retotal st) = retotal st.
Proof. reflexivity. Qed.

(** A handler that keeps the month triggers no fetch of its own accord. *)
Lemma turn_month_kept (k : Act) (st : Store) :
  currentMonth (k st).1 = currentMonth st ->
  turn k st = (retotal (k st).1, (k st).2).
Proof.
  intros H. unfold turn. destruct (k st) as [st1 out1]. cbn in H |- *.
  rewrite H, String.eqb_refl. cbn. now rewrite app_nil_r, H.
Qed.

(** A handler that changes the month triggers the four fetches for the new
    month. *)
Lemma turn_month_changed (k : Act) (st : Store) :
  currentMonth (k st).1 <> currentMonth st ->
  sent (turn k st).2 =
    sent (k st).2 ++
    [AwaitSummary (currentMonth (k st).1);
     AwaitTransactions (currentMonth (k st).1);
     AwaitBudgets;
     AwaitMonths (currentMonth (k st).1)] /\
  currentMonth (turn k st).1 = currentMonth (k st).1.
Proof.
  intros H. unfold turn. destruct (k st) as [st1 out1]. cbn in H |- *.
  apply String.eqb_neq in H. rewrite H. cbn. split; [|reflexivity].
  unfold sent. rewrite omap_app. reflexivity.
Qed.

(** ** Budgets: fetching and saving *)

(** C10.  A successful budgets fetch stores the fetched map both as the
    confirmed map and as the draft, in one turn and whatever the draft held
    and whether or not the editor is open (the edit flag is not touched):
    afterwards draft and confirmed map are the same map. *)
Theorem fetchBudgets_resets_draft (st : Store) (data : Budgets) :
  let st' := (turn (fetchBudgets_settled (Ok200 (Some data))) st).1 in
  budgets st' = data /\
  tempBudgets st' = data /\
  tempBudgets st' = budgets st' /\
  editingBudgets st' = editingBudgets st.
Proof.
  rewrite turn_month_kept by reflexivity. cbn. repeat split.
Qed.

(** An edit in progress is lost to the budgets fetch sent at start-up when
    its reply comes in late: the draft typed for Groceries is gone. *)
Example draft_lost_to_refetch :
  let fetched : Budgets := {[ "Groceries" := 300%float ]} in
  (c ← run [BeginBudgetEdit;
            ChangeDraft "Groceries" 450%float;
            Settle 2 (BudgetsReply (Ok200 (Some fetched)))]
           (boot "2024-03-05T10:00:00.000Z");
   Some (editingBudgets (store c),
         tempBudgets (store c) !! "Groceries",
         budgets (store c) !! "Groceries"))
  = Some (true, Some 300%float, Some 300%float).
Proof. vm_compute. reflexivity. Qed.

(** C6.  [clicked] is the store when Save is clicked and [st] the store
    when the reply arrives.  The click sends the draft and changes nothing.
    Unless the reply confirms the write, the continuation leaves the whole
    store as it is, the draft included, and sends nothing.  When it does,
    the confirmed map becomes the draft that was sent, edit mode ends, the
    draft is kept, and exactly one request is sent in that turn: the
    summary of the month of the click. *)
Theorem saveBudgets_outcomes (clicked st : Store) (r : Reply WriteResult) :
  saveBudgets clicked =
    (clicked,
     [Send (AwaitBudgetSave (tempBudgets clicked) (currentMonth clicked))]) /\
  let k := saveBudgets_settled (tempBudgets clicked) (currentMonth clicked) r in
  (confirmed r = false ->
     (k st).1 = st /\
     tempBudgets (turn k st).1 = tempBudgets st /\
     budgets (turn k st).1 = budgets st /\
     editingBudgets (turn k st).1 = editingBudgets st /\
     sent (turn k st).2 = []) /\
  (confirmed r = true ->
     budgets (turn k st).1 = tempBudgets clicked /\
     editingBudgets (turn k st).1 = false /\
     tempBudgets (turn k st).1 = tempBudgets st /\
     sent (turn k st).2 = [AwaitSummary (currentMonth clicked)]).
Proof.
  split; [reflexivity|]. cbn zeta.
  destruct r as [|status|[[[|]]|]]; cbn [confirmed success];
    (split; [intros Hr|intros Hr]); try discriminate Hr;
    rewrite turn_month_kept by reflexivity; cbn; repeat split.
Qed.

Lemma saveBudgets_outcomes_witness :
  let clicked := initialStore "2024-03-05T10:00:00.000Z" in
  let k := saveBudgets_settled (tempBudgets clicked) (currentMonth clicked)
             (NotOk 500) in
  tempBudgets (turn k clicked).1 = tempBudgets clicked.
Proof.
  intros clicked k.
  exact (proj1 (proj2 (proj1 (proj2
    (saveBudgets_outcomes clicked clicked (NotOk 500))) eq_refl))).
Defined.

(** ** Failed reads *)

(** A read that fails (the request is rejected, the response is not
    [ok], or its body does not parse) writes nothing but the loading flag:
    a failed summary fetch only lowers the flag, and a failed transactions,
    budgets or months fetch leaves the store exactly as it was. *)
Theorem failed_read_keeps_state (st : Store) :
  (forall r, failed r = true ->
     let st' := (fetchSummary_settled r st).1 in
     st' = (setLoading false st).1 /\
     summary st' = summary st /\ totals st' = totals st /\
     transactions st' = transactions st /\
     budgets st' = budgets st /\ tempBudgets st' = tempBudgets st /\
     availableMonths st' = availableMonths st /\
     currentMonth st' = currentMonth st) /\
  (forall r, failed r = true -> (fetchTransactions_settled r st).1 = st) /\
  (forall r, failed r = true -> (fetchBudgets_settled r st).1 = st) /\
  (forall closureMonth r, failed r = true ->
     (fetchAvailableMonths_settled closureMonth r st).1 = st).
Proof.
  split; [|split; [|split]].
  - intros [|status|[data|]] Hr; try discriminate Hr; cbn; repeat split.
  - intros [|status|[data|]] Hr; try discriminate Hr; reflexivity.
  - intros [|status|[data|]] Hr; try discriminate Hr; reflexivity.
  - intros closureMonth [|status|[data|]] Hr; try discriminate Hr;
      reflexivity.
Qed.

Lemma failed_read_keeps_state_witness :
  let st := (fetchBudgets_settled
               (Ok200 (Some {[ "Groceries" := 300%float ]}))
               (initialStore "2024-03-05T10:00:00.000Z")).1 in
  (fetchBudgets_settled (NotOk 503) st).1 = st.
Proof.
  intros st.
  exact (proj1 (proj2 (proj2 (failed_read_keeps_state st)))
           (NotOk 503) eq_refl).
Defined.

(** ** Editing the category of a transaction *)

Lemma categoryOf_recategorised (transactionId : Z) (newCategory : string)
    (l : list Transaction) :
  categoryOf transactionId
    (map (fun t => if (ID t =? transactionId)%Z
                   then withCategory newCategory t else t) l)
  = (fun _ => newCategory) <$> categoryOf transactionId l.
Proof.
  unfold categoryOf. induction l as [|t l IH]; [reflexivity|].
  cbn [map List.find]. destruct (ID t =? transactionId)%Z eqn:E.
  - cbn [ID withCategory]. rewrite E. reflexivity.
  - rewrite E. exact IH.
Qed.





(** The whole exchange for transaction 7: after a failed write the list
    still reads Shopping and an alert is raised; after a confirmed one it
    reads the new category and the summary of the month is requested. *)
Example category_edit_rejected_then_confirmed :
  let bookshop :=
    mkTransaction 7 "2024-03-02" "Bookshop" "Shopping" (inr 25.5%float)
                  "credit" in
  let loaded :=
    run [Settle 0 (SummaryReply (Ok200 (Some [])));
         Settle 0 (TransactionsReply (Ok200 (Some [bookshop])));
         Settle 0 (BudgetsReply (Ok200 (Some ∅)));
         Settle 0 (MonthsReply (Ok200 (Some ["2024-03"])));
         ChooseCategory 7 "Dining & Restaurants"]
        (boot "2024-03-05T10:00:00.000Z") in
  (c ← loaded; c' ← step (Settle 0 (WriteReply (NotOk 500))) c;
   Some (categoryOf 7 (transactions (store c')), inflight c',
         alerts (output c')))
  = Some (Some "Shopping", [],
          ["Failed to update category. Please try again."]) /\
  (c ← loaded;
   c' ← step (Settle 0 (WriteReply (Ok200 (Some (mkWriteResult true))))) c;
   Some (categoryOf 7 (transactions (store c')), inflight c',
         alerts (output c')))
  = Some (Some "Dining & Restaurants", [AwaitSummary "2024-03"], []).
Proof. split; vm_compute; reflexivity. Qed.

(** ** Replies and the month selection *)

(** C2, as stated, fails: February is selected, then March while the
    February requests are in flight; when the February summary arrives it
    is stored, although March is the month selected. *)
Lemma stale_summary_is_stored :
  let february : Summary :=
    [("Groceries", mkCategorySummary 120 300 180 40 3 false)] in
  let selected :=
    run [SelectMonth "2024-02"; SelectMonth "2024-03"]
        (boot "2024-03-05T10:00:00.000Z") in
  (c ← selected; inflight c !! 4%nat) = Some (AwaitSummary "2024-02") /\
  (c ← selected;
   c' ← step (Settle 4 (SummaryReply (Ok200 (Some february)))) c;
   Some (currentMonth (store c'), summary (store c')))
  = Some ("2024-03", february).
Proof. split; vm_compute; reflexivity. Qed.

(** C2 (amended).  The continuation of a summary or transactions fetch
    does not look at the month the request was sent for, nor at the month
    selected when the reply arrives: whenever a request in flight is
    answered with an [ok] response whose body parses, that body becomes the
    summary (with its totals) or the transaction list, and the month
    selection stays as it is.  What the store shows is the reply that
    arrived last. *)
Theorem fetch_reply_stored_unguarded (c : Config) (i : nat)
    (month : string) :
  (forall data, inflight c !! i = Some (AwaitSummary month) ->
     exists c',
       step (Settle i (SummaryReply (Ok200 (Some data)))) c = Some c' /\
       summary (store c') = data /\
       totals (store c') = totalsOf data /\
       currentMonth (store c') = currentMonth (store c)) /\
  (forall data, inflight c !! i = Some (AwaitTransactions month) ->
     exists c',
       step (Settle i (TransactionsReply (Ok200 (Some data)))) c = Some c' /\
       transactions (store c') = data /\
       currentMonth (store c') = currentMonth (store c)).
Proof.
  split; intros data Hi; unfold step; rewrite Hi; cbn [mbind option_bind resume];
    rewrite turn_month_kept by reflexivity;
    eexists; (split; [reflexivity|]); cbn; repeat split.
Qed.

Lemma fetch_reply_stored_unguarded_witness :
  let february : Summary :=
    [("Groceries", mkCategorySummary 120 300 180 40 3 false)] in
  let c := mkConfig (initialStore "2024-03-05T10:00:00.000Z")
                    [AwaitSummary "2024-02"] [] in
  exists c',
    step (Settle 0 (SummaryReply (Ok200 (Some february)))) c = Some c' /\
    summary (store c') = february /\
    totals (store c') = totalsOf february /\
    currentMonth (store c') = currentMonth (store c).
Proof.
  intros february c.
  exact (proj1 (fetch_reply_stored_unguarded c 0 "2024-02") february eq_refl).
Defined.

(** ** The months fetch and the month selection *)

Lemma slice_month_nonempty (isoNow : string) :
  isoNow <> "" -> substring 0 7 isoNow <> "".
Proof. destruct isoNow; [congruence|discriminate]. Qed.

Lemma boot_inflight (isoNow : string) :
  inflight (boot isoNow) =
    [AwaitSummary (substring 0 7 isoNow);
     AwaitTransactions (substring 0 7 isoNow);
     AwaitBudgets;
     AwaitMonths (substring 0 7 isoNow)] /\
  currentMonth (store (boot isoNow)) = substring 0 7 isoNow.
Proof. split; reflexivity. Qed.

(** C5.  The component starts on 3 November 2026, the user selects
    nothing, and the first months fetch succeeds with March 2024 as the
    newest month.  The claim has March 2024 selected and its data
    requested.  The component stores the months, stays on November 2026
    and sends nothing: the test [currentMonth === ''] reads the month of
    the clock, which is never empty. *)
Lemma first_months_reply_selects_nothing :
  let started := boot "2026-11-03T08:28:00.000Z" in
  inflight started !! 3%nat = Some (AwaitMonths "2026-11") /\
  (c ← step (Settle 3 (MonthsReply (Ok200 (Some ["2024-03"; "2024-02"]))))
            started;
   Some (availableMonths (store c), currentMonth (store c), inflight c))
  = Some (["2024-03"; "2024-02"], "2026-11",
          [AwaitSummary "2026-11"; AwaitTransactions "2026-11";
           AwaitBudgets]) /\
  "2026-11" <> "2024-03".
Proof. split; [|split]; [vm_compute; reflexivity..|discriminate]. Qed.

(** What the months fetch does for every store, reply and clock.  A
    successful months fetch stores the list, and selects its first element
    exactly when the list is not empty and the month that was selected
    when the fetch was sent is the empty string.  If that changes the
    month selection, the four fetches of the month effect are sent for the
    new month, and otherwise nothing is sent.  The component starts with
    the month of the clock selected, which is not empty, so the months
    fetch sent at start-up selects nothing: after its reply the selection
    is still the month of the clock and nothing new is in flight. *)
Theorem fetchAvailableMonths_selects_on_empty_month (st : Store)
    (closureMonth isoNow : string) (data : list string) :
  let k := fetchAvailableMonths_settled closureMonth (Ok200 (Some data)) in
  let month' :=
    match data with
    | newest :: _ => if String.eqb closureMonth "" then newest
                     else currentMonth st
    | [] => currentMonth st
    end in
  availableMonths (turn k st).1 = data /\
  currentMonth (turn k st).1 = month' /\
  sent (turn k st).2 =
    (if String.eqb month' (currentMonth st) then []
     else [AwaitSummary month'; AwaitTransactions month'; AwaitBudgets;
           AwaitMonths month']) /\
  (isoNow <> "" ->
   exists c',
     step (Settle 3 (MonthsReply (Ok200 (Some data)))) (boot isoNow)
       = Some c' /\
     availableMonths (store c') = data /\
     currentMonth (store c') = substring 0 7 isoNow /\
     inflight c' = [AwaitSummary (substring 0 7 isoNow);
                    AwaitTransactions (substring 0 7 isoNow);
                    AwaitBudgets]).
Proof.
  cbn zeta. split; [|split; [|split]].
  - unfold turn. cbn. destruct data as [|newest rest]; cbn.
    + rewrite andb_false_r. cbn. now rewrite String.eqb_refl.
    + destruct (String.eqb closureMonth ""); cbn.
      * destruct (String.eqb newest (currentMonth st)); reflexivity.
      * now rewrite String.eqb_refl.
  - unfold turn. cbn. destruct data as [|newest rest]; cbn.
    + rewrite andb_false_r. cbn. now rewrite String.eqb_refl.
    + destruct (String.eqb closureMonth ""); cbn.
      * destruct (String.eqb newest (currentMonth st)) eqn:E; cbn;
          [now apply String.eqb_eq in E|reflexivity].
      * now rewrite String.eqb_refl.
  - unfold turn. cbn. destruct data as [|newest rest]; cbn.
    + rewrite andb_false_r. cbn. now rewrite !String.eqb_refl.
    + destruct (String.eqb closureMonth ""); cbn.
      * destruct (String.eqb newest (currentMonth st)) eqn:E; reflexivity.
      * now rewrite !String.eqb_refl.
  - intros Hnow. apply slice_month_nonempty in Hnow.
    apply String.eqb_neq in Hnow.
    unfold step. cbn [boot mount inflight].
    destruct (boot_inflight isoNow) as [Hin Hmonth].
    rewrite Hin. cbn [lookup list_lookup mbind option_bind resume].
    rewrite turn_month_kept.
    + eexists. split; [reflexivity|]. cbn. rewrite Hnow. cbn.
      repeat split.
    + cbn. rewrite Hnow. reflexivity.
Qed.

Lemma fetchAvailableMonths_selects_on_empty_month_witness :
  exists c',
    step (Settle 3 (MonthsReply (Ok200 (Some ["2024-03"; "2024-02"]))))
         (boot "2026-11-03T08:28:00.000Z") = Some c' /\
    availableMonths (store c') = ["2024-03"; "2024-02"] /\
    currentMonth (store c') = "2026-11" /\
    inflight c' = [AwaitSummary "2026-11"; AwaitTransactions "2026-11";
                   AwaitBudgets].
Proof.
  refine (proj2 (proj2 (proj2
    (fetchAvailableMonths_selects_on_empty_month
       (initialStore "") "" "2026-11-03T08:28:00.000Z"
       ["2024-03"; "2024-02"]))) _).
  discriminate.
Defined.

(** When the month selection is empty the newest month is selected and its
    data requested; the test reads the month of the time the fetch was
    sent, so a month chosen while the months fetch is in flight is replaced
    as well. *)
Example empty_month_selects_newest :
  let emptied := run [SelectMonth ""] (boot "2026-11-03T08:28:00.000Z") in
  (c ← emptied; inflight c !! 7%nat) = Some (AwaitMonths "") /\
  (c ← emptied;
   c' ← step (Settle 7 (MonthsReply (Ok200 (Some ["2024-03"; "2024-02"])))) c;
   Some (currentMonth (store c'), drop 7 (inflight c')))
  = Some ("2024-03",
          [AwaitSummary "2024-03"; AwaitTransactions "2024-03";
           AwaitBudgets; AwaitMonths "2024-03"]) /\
  (c ← emptied;
   c' ← run [SelectMonth "2024-01";
             Settle 7 (MonthsReply (Ok200 (Some ["2024-03"; "2024-02"])))] c;
   Some (currentMonth (store c')))
  = Some "2024-03".
Proof. repeat split; vm_compute; reflexivity. Qed.

End Store.

(** * Reads and the body as it is parsed *)

Section RawReplies.
Import Dashboard RawReads.

(** On bodies of the declared type the reads over run-time cells do what
    the reads over typed cells do. *)
Lemma raw_reads_agree (ToNumberOther : Json.t -> float)
    (encodeSummary : Summary -> Json.t)
    (encodeTransactions : list Transaction -> Json.t) (st : Store) :
  let v := view encodeSummary encodeTransactions in
  (forall r, (fetchSummary_raw (mapReply encodeSummary r) (v st)).1
             = v (fetchSummary_settled r st).1) /\
  (forall r, (fetchTransactions_raw (mapReply encodeTransactions r) (v st)).1
             = v (fetchTransactions_settled r st).1) /\
  (forall r, (fetchBudgets_raw (mapReply encodeBudgets r) (v st)).1
             = v (fetchBudgets_settled r st).1) /\
  (forall closureMonth r,
     (fetchAvailableMonths_raw ToNumberOther (Some (Json.Str closureMonth))
        (mapReply encodeMonths r) (v st)).1
     = v (fetchAvailableMonths_settled closureMonth r st).1).
Proof.
  cbn zeta. split; [|split; [|split]].
  - intros [|status|[data|]]; reflexivity.
  - intros [|status|[data|]]; reflexivity.
  - intros [|status|[data|]]; reflexivity.
  - intros closureMonth [|status|[data|]]; try reflexivity.
    unfold fetchAvailableMonths_raw, fetchAvailableMonths_settled.
    cbn [mapReply fmap option_fmap option_map is_empty_string].
    destruct (String.eqb closureMonth ""); [|reflexivity].
    destruct data as [|newest rest]; reflexivity.
Qed.

Lemma encodeBudgets_entries_are_numbers (b : Budgets) (key : string)
    (v : Json.t) (rest : list (string * Json.t)) :
  encodeBudgets b = Json.Obj ((key, v) :: rest) -> exists x, v = Json.Num x.
Proof.
  unfold encodeBudgets. intros [= H].
  destruct (map_to_list b) as [|[k x] l]; [discriminate H|].
  cbn in H. injection H as _ <- _. now exists x.
Qed.

(** C7, as stated, fails on a malformed response.  With the budgets of
    Groceries loaded, the budgets fetch is answered [ok] with an error
    object for a body.  The body parses and is no budget mapping; it is
    stored as the budgets and as the draft, in place of what was
    loaded. *)
Lemma malformed_budgets_reply_is_stored :
  let body := Json.Obj [("error", Json.Str "Unauthorized")] in
  let loaded :=
    (fetchBudgets_raw
       (Ok200 (Some (encodeBudgets {[ "Groceries" := 300%float ]})))
       (rawInitialStore "2024-03-05T10:00:00.000Z")).1 in
  let after := (fetchBudgets_raw (Ok200 (Some body)) loaded).1 in
  (forall b : Budgets, encodeBudgets b <> body) /\
  rawBudgets loaded = Json.Obj [("Groceries", Json.Num 300)] /\
  rawBudgets after = body /\
  rawTempBudgets after = body /\
  rawBudgets after <> rawBudgets loaded.
Proof.
  cbn zeta. split; [|split; [|split; [|split]]].
  - intros b H. apply encodeBudgets_entries_are_numbers in H.
    destruct H as [x H]. discriminate H.
  - vm_compute. reflexivity.
  - reflexivity.
  - reflexivity.
  - vm_compute. discriminate.
Qed.

(** C7 (amended).  A read whose request is rejected, whose response is not
    [ok] or whose body does not parse writes nothing but the loading
    flag, over typed cells and over run-time cells alike: a failed summary
    fetch only lowers the flag, and a failed transactions, budgets or
    months fetch leaves the store exactly as it was.  An [ok] response
    whose body parses is stored without a check, whatever its shape: the
    body becomes the summary, the transactions, the budgets and the draft,
    or the months, in place of what was loaded. *)
Theorem read_reply_kept_or_stored (ToNumberOther : Json.t -> float)
    (st : Store) (raw : RawStore) (closure : JsValue) (body : Json.t) :
  ((forall r, failed r = true ->
      let st' := (fetchSummary_settled r st).1 in
      st' = (setLoading false st).1 /\
      summary st' = summary st /\ totals st' = totals st /\
      transactions st' = transactions st /\
      budgets st' = budgets st /\ tempBudgets st' = tempBudgets st /\
      availableMonths st' = availableMonths st /\
      currentMonth st' = currentMonth st) /\
   (forall r, failed r = true -> (fetchTransactions_settled r st).1 = st) /\
   (forall r, failed r = true -> (fetchBudgets_settled r st).1 = st) /\
   (forall closureMonth r, failed r = true ->
      (fetchAvailableMonths_settled closureMonth r st).1 = st)) /\
  (forall r : Reply Json.t, failed r = true ->
     (fetchSummary_raw r raw).1
       = mkRawStore (rawCurrentMonth raw) (rawSummary raw)
           (rawTransactions raw) (rawBudgets raw) (rawTempBudgets raw)
           (rawAvailableMonths raw) false /\
     (fetchTransactions_raw r raw).1 = raw /\
     (fetchBudgets_raw r raw).1 = raw /\
     (fetchAvailableMonths_raw ToNumberOther closure r raw).1 = raw) /\
  rawSummary (fetchSummary_raw (Ok200 (Some body)) raw).1 = body /\
  rawTransactions (fetchTransactions_raw (Ok200 (Some body)) raw).1 = body /\
  rawBudgets (fetchBudgets_raw (Ok200 (Some body)) raw).1 = body /\
  rawTempBudgets (fetchBudgets_raw (Ok200 (Some body)) raw).1 = body /\
  rawAvailableMonths
    (fetchAvailableMonths_raw ToNumberOther closure (Ok200 (Some body)) raw).1
    = body.
Proof.
  split; [exact (failed_read_keeps_state st)|]. split.
  - intros [|status|[data|]] Hr; try discriminate Hr; repeat split.
  - split; [reflexivity|]. split; [reflexivity|]. split; [reflexivity|].
    split; [reflexivity|]. unfold fetchAvailableMonths_raw.
    destruct (is_empty_string closure); [|reflexivity].
    destruct (length_positive ToNumberOther body) as [[|]|]; reflexivity.
Qed.

Lemma read_reply_kept_or_stored_witness :
  let loaded :=
    (fetchBudgets_raw
       (Ok200 (Some (encodeBudgets {[ "Groceries" := 300%float ]})))
       (rawInitialStore "2024-03-05T10:00:00.000Z")).1 in
  (fetchBudgets_raw (NotOk 503) loaded).1 = loaded.
Proof.
  intros loaded.
  exact (proj1 (proj2 (proj2 (proj1 (proj2
    (read_reply_kept_or_stored (fun _ => 0%float)
       (initialStore "2024-03-05T10:00:00.000Z") loaded None Json.Null))
    (NotOk 503) eq_refl)))).
Defined.

End RawReplies.

(** * Properties of the derived views *)

Section Views.
Import Dashboard.
Local Open Scope float_scope.
#[local] Set Warnings "-inexact-float".

(** ** Comparisons of binary64 numbers *)

Ltac order_cases :=
  repeat match goal with
  | H : context [Z.compare ?a ?b] |- _ =>
      destruct (Z.compare_spec a b); try discriminate H
  | H : context [Pos.compare_cont Eq ?a ?b] |- _ =>
      change (Pos.compare_cont Eq a b) with (Pos.compare a b) in H
  | H : context [Pos.compare ?a ?b] |- _ =>
      destruct (Pos.compare_spec a b); try discriminate H
  | |- context [Z.compare ?a ?b] => destruct (Z.compare_spec a b)
  | |- context [Pos.compare_cont Eq ?a ?b] =>
      change (Pos.compare_cont Eq a b) with (Pos.compare a b)
  | |- context [Pos.compare ?a ?b] => destruct (Pos.compare_spec a b)
  end.

Lemma SFltb_leb_trans (x y z : spec_float) :
  SFltb x y = true -> SFleb y z = true -> SFleb x z = true.
Proof.
  unfold SFltb, SFleb.
  destruct x as [sx|sx| |sx mx ex], y as [sy|sy| |sy my ey],
           z as [sz|sz| |sz mz ez];
    try destruct sx; try destruct sy; try destruct sz;
    cbn; intros H1 H2; try discriminate; try reflexivity.
  all: order_cases; subst; try reflexivity; try lia.
Qed.

Lemma SFleb_false_ltb (x c : spec_float) :
  x <> S754_nan -> c <> S754_nan ->
  (SFleb x c = false <-> SFltb c x = true).
Proof.
  unfold SFltb, SFleb. intros Hx Hc.
  destruct x as [sx|sx| |sx mx ex], c as [sc|sc| |sc mc ec];
    try destruct sx; try destruct sc; cbn; try congruence;
    try (split; intros; congruence).
  all: order_cases; subst; split; intros;
    try reflexivity; try discriminate; try lia.
Qed.

(** [p1 < p2] and [p2 <= c] give [p1 <= c], also at the infinities. *)
Lemma ltb_leb_trans (p1 p2 c : float) :
  (p1 <? p2) = true -> (p2 <=? c) = true -> (p1 <=? c) = true.
Proof.
  rewrite FloatAxioms.ltb_spec, !FloatAxioms.leb_spec.
  apply SFltb_leb_trans.
Qed.

Lemma not_nan_spec (p : float) : is_nan p = false -> Prim2SF p <> S754_nan.
Proof.
  unfold is_nan. rewrite FloatAxioms.eqb_spec. intros H E. rewrite E in H.
  discriminate H.
Qed.

Lemma SFeqb_refl (x : spec_float) : x <> S754_nan -> SFeqb x x = true.
Proof.
  unfold SFeqb. destruct x as [s|s| |s m e]; try destruct s; cbn;
    try congruence.
  all: rewrite Z.compare_refl;
    change (Pos.compare_cont Eq m m) with (Pos.compare m m);
    now rewrite Pos.compare_refl.
Qed.

(** [NaN] is below nothing. *)
Lemma nan_leb (p c : float) : is_nan p = true -> (p <=? c) = false.
Proof.
  unfold is_nan. rewrite FloatAxioms.eqb_spec, FloatAxioms.leb_spec.
  intros H. destruct (Prim2SF p) eqn:E; try reflexivity.
  all: rewrite SFeqb_refl in H by discriminate; discriminate H.
Qed.

(** Away from [NaN], not [p <= c] is [c < p]. *)
Lemma leb_false_ltb (p c : float) :
  is_nan p = false -> is_nan c = false ->
  ((p <=? c) = false <-> (c <? p) = true).
Proof.
  intros Hp Hc. rewrite FloatAxioms.ltb_spec, FloatAxioms.leb_spec.
  apply SFleb_false_ltb; now apply not_nan_spec.
Qed.

(** ** Progress colour and status icon *)





(** ** Totals *)

(** With an addition that is associative and commutative, as that of exact
    decimals is, the sum [calculateTotals] folds does not depend on the
    order of the entries. *)
Section ExactSums.
Context {A num : Type} (add : num -> num -> num) (f : A -> num).
Hypothesis add_assoc : forall a b c, add (add a b) c = add a (add b c).
Hypothesis add_comm : forall a b, add a b = add b a.

Lemma reduce_sum_permutation (l l' : list A) :
  Permutation l l' ->
  forall zero,
    reduce (fun sum x => add sum (f x)) zero l =
    reduce (fun sum x => add sum (f x)) zero l'.
Proof.
  unfold reduce. induction 1 as [|x l l' _ IH|x y l|l l' l'' _ IH1 _ IH2];
    intros zero; cbn.
  - reflexivity.
  - apply IH.
  - f_equal. rewrite !add_assoc. f_equal. apply add_comm.
  - now rewrite IH1.
Qed.

End ExactSums.

Lemma reduce_snoc {A B : Type} (callback : B -> A -> B) (initialValue : B)
    (array : list A) (x : A) :
  reduce callback initialValue (array ++ [x]) =
  callback (reduce callback initialValue array) x.
Proof. unfold reduce. now rewrite fold_left_app. Qed.

(** C3, as stated, fails: binary64 addition is not associative, and the
    same three entries, spending 0.1, 0.2 and 0.3, total 0.6000000000000001
    in one order and 0.6 in the other. *)
Lemma totals_depend_on_order :
  let entry (category : string) (amount : float) :=
    (category, mkCategorySummary amount 0 (0 - amount) 0 1 true) in
  let forward :=
    [entry "Groceries" 0.1; entry "Utilities" 0.2; entry "Travel" 0.3] in
  let backward := rev forward in
  Permutation forward backward /\
  Totals.totalSpent (totalsOf forward) = 0.6000000000000001 /\
  Totals.totalSpent (totalsOf backward) = 0.6 /\
  (Totals.totalSpent (totalsOf forward)
     =? Totals.totalSpent (totalsOf backward)) = false /\
  totalsOf forward <> totalsOf backward.
Proof.
  intros entry forward backward.
  split; [apply Permutation_rev|].
  split; [vm_compute; reflexivity|].
  split; [vm_compute; reflexivity|].
  split; [vm_compute; reflexivity|].
  intros H. apply (f_equal Totals.totalSpent) in H.
  apply (f_equal (fun x => x =? 0.6)) in H. vm_compute in H.
  discriminate H.
Qed.

(** C3 (amended).  The totals are a left fold over the entries in the
    order the mapping iterates them, in binary64 arithmetic: the empty
    mapping totals zero, an entry that comes last adds its [spent] to the
    total spent so far and its [budget] to the total budget so far, and
    [remaining] is the total budget minus the total spent.
    [calculateTotals] stores exactly these totals.  The result is a
    function of the sequence of entries; two orders of the same entries
    need not give the same totals. *)
Theorem totalsOf_fold (summaryData : Summary) (category : string)
    (data : CategorySummary) (st : Store) :
  totalsOf [] = Totals.mk 0 0 0 /\
  Totals.totalSpent (totalsOf (summaryData ++ [(category, data)])) =
    Totals.totalSpent (totalsOf summaryData) + spent data /\
  Totals.totalBudget (totalsOf (summaryData ++ [(category, data)])) =
    Totals.totalBudget (totalsOf summaryData) + budget data /\
  Totals.remaining (totalsOf summaryData) =
    Totals.totalBudget (totalsOf summaryData) -
    Totals.totalSpent (totalsOf summaryData) /\
  totals (calculateTotals summaryData st).1 = totalsOf summaryData.
Proof.
  split; [reflexivity|]. unfold totalsOf, Object_values.
  cbn [Totals.totalSpent Totals.totalBudget Totals.remaining].
  rewrite map_app. cbn [map snd]. rewrite !reduce_snoc.
  repeat split.
Qed.

End Views.

(** * Further properties of the session *)

Section SessionPersistence.
Import AuthContext App.

Lemma synced_restore_initial (storage : gmap string string) :
  synced (restoreSession (initial storage)).
Proof.
  unfold restoreSession. cbn [localStorage initial].
  destruct (storage !! access_token) as [saved|] eqn:E.
  - destruct (truthy saved) eqn:T.
    + left. cbn. split; [reflexivity|]. exists saved.
      split; [reflexivity|]. split; [now apply truthy_nonempty|exact E].
    + right. cbn. apply truthy_empty in T. subst saved. auto.
  - right. cbn. auto.
Qed.

Lemma synced_apply (o : Op) (s : Session) :
  usableLogin o -> synced s -> synced (AuthContext.apply o s).
Proof.
  intros Ho Hs. destruct o as [|t|]; cbn [AuthContext.apply] in *.
  - unfold restoreSession.
    destruct Hs as [(Hflag & t & Ht & Hne & Hls)|(Hflag & Ht & Hls)].
    + rewrite Hls. apply truthy_nonempty in Hne as Htruthy. rewrite Htruthy.
      left. cbn. split; [reflexivity|]. now exists t.
    + destruct Hls as [Hls|Hls]; rewrite Hls; cbn; right; auto.
  - left. cbn. split; [reflexivity|]. exists t.
    split; [reflexivity|]. split; [exact Ho|apply lookup_insert_eq].
  - right. cbn. split; [reflexivity|]. split; [reflexivity|].
    left. apply lookup_delete_eq.
Qed.

Lemma synced_run (ops : list Op) : forall s : Session,
  Forall usableLogin ops -> synced s -> synced (AuthContext.run ops s).
Proof.
  unfold AuthContext.run.
  induction ops as [|o ops IH]; intros s Hall Hs; cbn [fold_left].
  - exact Hs.
  - inversion Hall as [|? ? Ho Hrest]; subst.
    apply IH; [exact Hrest|]. now apply synced_apply.
Qed.

(** A reload changes nothing.  Take any session that a page load followed
    by logins with non-empty tokens, logouts and restores has led to:
    loading the page again on the storage it leaves behind restores
    exactly that session, flag, token and storage. *)
Theorem reload_restores_session (storage : gmap string string)
    (ops : list Op) :
  Forall usableLogin ops ->
  let s := AuthContext.run ops (restoreSession (initial storage)) in
  restoreSession (initial (localStorage s)) = s.
Proof.
  intros Hall s.
  pose proof (synced_run ops _ Hall (synced_restore_initial storage)) as Hs.
  fold s in Hs. destruct s as [flag tok ls].
  unfold restoreSession. cbn [localStorage initial] in *.
  destruct Hs as [(Hflag & t & Ht & Hne & Hls)|(Hflag & Ht & Hls)];
    cbn [isAuthenticated token localStorage] in *; subst.
  - rewrite Hls. apply truthy_nonempty in Hne. rewrite Hne. reflexivity.
  - destruct Hls as [Hls|Hls]; rewrite Hls; reflexivity.
Qed.

Lemma reload_restores_session_witness :
  let s := AuthContext.run [OpLogin "t0k3n"; OpLogout; OpLogin "n3wt0k3n"]
             (restoreSession (initial ∅)) in
  restoreSession (initial (localStorage s)) = s.
Proof.
  refine (reload_restores_session ∅
            [OpLogin "t0k3n"; OpLogout; OpLogin "n3wt0k3n"] _).
  repeat constructor; discriminate.
Defined.

(** The headers name the persisted token.  On any such session the
    dictionary [getAuthHeaders] returns has an [Authorization] entry
    exactly when a non-empty token is persisted, and then it is [Bearer]
    followed by the persisted token.  Whether a request carries the
    dictionary is up to the caller. *)
Theorem getAuthHeaders_carries_persisted_token
    (storage : gmap string string) (ops : list Op) (v : string) :
  Forall usableLogin ops ->
  let s := AuthContext.run ops (restoreSession (initial storage)) in
  getAuthHeaders s !! "Authorization" = Some v <->
  exists t, localStorage s !! access_token = Some t /\ t <> "" /\
            v = "Bearer " +:+ t.
Proof.
  intros Hall s.
  pose proof (synced_run ops _ Hall (synced_restore_initial storage)) as Hs.
  fold s in Hs. rewrite getAuthHeaders_lookup.
  destruct Hs as [(Hflag & t & Ht & Hne & Hls)|(Hflag & Ht & Hls)].
  - split.
    + intros (u & Hu & _ & ->). exists t.
      assert (u = t) as -> by congruence. auto.
    + intros (u & Hu & _ & ->). exists t.
      assert (u = t) as -> by congruence. auto.
  - split.
    + intros (u & Hu & _). congruence.
    + intros (u & Hu & Hne & _).
      destruct Hls as [Hls|Hls]; rewrite Hls in Hu; [discriminate|].
      injection Hu as <-. now destruct Hne.
Qed.

Lemma getAuthHeaders_carries_persisted_token_witness :
  let s := AuthContext.run [OpLogout; OpLogin "t0k3n"]
             (restoreSession (initial ∅)) in
  getAuthHeaders s !! "Authorization" = Some "Bearer t0k3n" <->
  exists t, localStorage s !! access_token = Some t /\ t <> "" /\
            "Bearer t0k3n" = "Bearer " +:+ t.
Proof.
  refine (getAuthHeaders_carries_persisted_token ∅
            [OpLogout; OpLogin "t0k3n"] "Bearer t0k3n" _).
  repeat constructor; discriminate.
Defined.

(** The session keeps to its own key: whatever is done, in whatever
    order, every other entry of [localStorage] is as it was. *)
Theorem session_ops_keep_other_keys (ops : list Op) (s : Session)
    (k : string) :
  k <> access_token ->
  localStorage (AuthContext.run ops s) !! k = localStorage s !! k.
Proof.
  intros Hk. unfold AuthContext.run. revert s.
  induction ops as [|o ops IH]; intros s; cbn [fold_left]; [reflexivity|].
  rewrite IH. destruct o as [|t|]; cbn [AuthContext.apply].
  - unfold restoreSession.
    destruct (localStorage s !! access_token) as [saved|]; [|reflexivity].
    destruct (truthy saved); reflexivity.
  - cbn. now apply lookup_insert_ne.
  - cbn. now apply lookup_delete_ne.
Qed.

Lemma session_ops_keep_other_keys_witness :
  localStorage
    (AuthContext.run [OpLogin "t0k3n"; OpLogout]
       (initial {[ "theme" := "dark" ]})) !! "theme"
  = Some "dark".
Proof.
  refine (eq_trans
    (session_ops_keep_other_keys [OpLogin "t0k3n"; OpLogout]
       (initial {[ "theme" := "dark" ]}) "theme" _) _).
  - discriminate.
  - reflexivity.
Defined.

End SessionPersistence.

(** * Properties of the application shell *)

Section AppGate.
Import AuthContext Dashboard App.

Lemma render_mounted (isoNow : string) (s : Session)
    (mounted : option Config) :
  is_Some (render isoNow s mounted) <-> isAuthenticated s = true.
Proof.
  unfold render, AppContent. destruct (isAuthenticated s); cbn.
  - split; [reflexivity|]. intros _. destruct mounted; eauto.
  - split; [intros [c Hc]; discriminate|discriminate].
Qed.

Lemma step_mounted (e : App.Event) (a a' : State) :
  (is_Some (tracker a) <-> isAuthenticated (session a) = true) ->
  App.step e a = Some a' ->
  (is_Some (tracker a') <-> isAuthenticated (session a') = true).
Proof.
  intros Ha Hstep. destruct e as [o isoNow|e|z i s]; cbn [App.step] in Hstep.
  - injection Hstep as <-. cbn [tracker session]. apply render_mounted.
  - destruct (tracker a) as [c|] eqn:Ec; [|discriminate].
    cbn in Hstep. destruct (Dashboard.step e c) as [c'|]; [|discriminate].
    cbn in Hstep. injection Hstep as <-. cbn [tracker session].
    split; [intros _; apply Ha; eauto|eauto].
  - destruct (unmounted a !! z) as [c|]; [|discriminate].
    cbn in Hstep. destruct (settleUnmounted i s c) as [c'|]; [|discriminate].
    cbn in Hstep. injection Hstep as <-. exact Ha.
Qed.

(** The tracker is on screen exactly while the session is authenticated:
    after a page load and any events, a [BudgetTracker] is mounted if and
    only if the flag is up. *)
Theorem tracker_mounted_iff_authenticated (storage : gmap string string)
    (isoNow : string) (events : list App.Event) (a : State) :
  App.run events (load storage isoNow) = Some a ->
  (is_Some (tracker a) <-> isAuthenticated (session a) = true).
Proof.
  assert (forall events a0 a,
            (is_Some (tracker a0) <-> isAuthenticated (session a0) = true) ->
            App.run events a0 = Some a ->
            (is_Some (tracker a) <-> isAuthenticated (session a) = true))
    as Hrun.
  { clear. induction events as [|e rest IH]; intros a0 a H0 Hr.
    - injection Hr as <-. exact H0.
    - cbn [App.run] in Hr. destruct (App.step e a0) as [a1|] eqn:E;
        [|discriminate].
      cbn in Hr. eapply IH; [|exact Hr]. eapply step_mounted; eauto. }
  apply Hrun. unfold load. cbn [tracker session]. apply render_mounted.
Qed.

Lemma tracker_mounted_iff_authenticated_witness :
  let a := mkState (login "t0k3n" (initial ∅))
                   (Some (boot "2024-03-05T10:00:00.000Z")) [] in
  is_Some (tracker a) <-> isAuthenticated (session a) = true.
Proof.
  refine (tracker_mounted_iff_authenticated ∅ "2024-03-05T10:00:00.000Z"
            [Auth (OpLogin "t0k3n") "2024-03-05T10:00:00.000Z"] _ _).
  reflexivity.
Defined.

(** What a continuation alerts, logs and sends does not depend on the
    store it finds, so it is the same for a tracker that was unmounted. *)
Lemma continuation_output_any_store (p : Pending) (s : Settlement)
    (k : Act) (st1 st2 : Store) :
  resume p s = Some k -> (k st1).2 = (k st2).2.
Proof.
  destruct p, s; cbn [resume]; intros [= <-];
    try (destruct r as [|status|[data|]]; reflexivity).
  - destruct r as [|status|[data|]]; try reflexivity.
    unfold fetchAvailableMonths_settled.
    destruct (String.eqb closureMonth "" && (0 <? length data)%nat);
      [|reflexivity].
    destruct (data !! 0%nat); reflexivity.
  - destruct r as [|status|[[[|]]|]]; reflexivity.
  - destruct r as [|status|[[[|]]|]]; reflexivity.
Qed.

(** A logout discards the store and aborts nothing.  It unmounts the
    tracker, whose requests stay in flight, and the login that follows
    mounts a new tracker: its store holds no summary, transactions,
    budgets, draft or months, and the requests of its own mount are the
    only ones it has in flight.  A reply to a request of an unmounted
    tracker changes neither the session nor the mounted tracker, but its
    continuation runs: a confirmation of a budget save that was in flight
    at the logout still sends a summary request and raises the alert of
    the save. *)
Theorem logout_discards_store_not_requests (a : State) (c : Config)
    (i : nat) (closureTemp : Budgets)
    (closureMonth newToken isoOut isoIn : string) :
  tracker a = Some c ->
  inflight c !! i = Some (AwaitBudgetSave closureTemp closureMonth) ->
  let out := mkState (logout (session a)) None (unmounted a ++ [c]) in
  let back := mkState (login newToken (logout (session a)))
                      (Some (boot isoIn)) (unmounted a ++ [c]) in
  App.step (Auth OpLogout isoOut) a = Some out /\
  App.step (Auth (OpLogin newToken) isoIn) out = Some back /\
  (summary (store (boot isoIn)) = [] /\
   transactions (store (boot isoIn)) = [] /\
   budgets (store (boot isoIn)) = ∅ /\
   tempBudgets (store (boot isoIn)) = ∅ /\
   availableMonths (store (boot isoIn)) = [] /\
   inflight (boot isoIn) =
     [AwaitSummary (substring 0 7 isoIn);
      AwaitTransactions (substring 0 7 isoIn);
      AwaitBudgets;
      AwaitMonths (substring 0 7 isoIn)]) /\
  (forall z j s a', App.step (Late z j s) back = Some a' ->
     session a' = session back /\ tracker a' = tracker back) /\
  App.step (Late (length (unmounted a)) i
              (WriteReply (Ok200 (Some (mkWriteResult true))))) back
    = Some (mkState (session back) (tracker back)
              (unmounted a ++
               [mkConfig (store c)
                  (delete i (inflight c) ++ [AwaitSummary closureMonth])
                  (output c ++
                   [Send (AwaitSummary closureMonth);
                    Alert "Budgets updated successfully"])])).
Proof.
  intros Hc Hi out back.
  split; [unfold App.step; cbn; now rewrite Hc|].
  split; [reflexivity|]. split; [repeat split|]. split.
  - intros z j s a' Hstep. cbn [App.step] in Hstep.
    destruct (unmounted back !! z) as [c0|]; [|discriminate].
    cbn in Hstep. destruct (settleUnmounted j s c0) as [c1|]; [|discriminate].
    cbn in Hstep. injection Hstep as <-. split; reflexivity.
  - cbn [App.step]. subst back. cbn [unmounted session tracker].
    rewrite lookup_app_r by lia. rewrite Nat.sub_diag.
    cbn [lookup list_lookup mbind option_bind].
    unfold settleUnmounted. rewrite Hi. cbn [mbind option_bind resume].
    cbn [saveBudgets_settled success]. cbn [mbind option_bind].
    f_equal. f_equal.
    replace (length (unmounted a)) with (length (unmounted a) + 0)%nat
      at 1 by lia.
    rewrite insert_app_r. reflexivity.
Qed.

Lemma logout_discards_store_not_requests_witness :
  let c := mkConfig (initialStore "2024-03-05T10:00:00.000Z")
                    [AwaitBudgetSave ∅ "2024-03"] [] in
  let a := mkState (login "t0k3n" (initial ∅)) (Some c) [] in
  App.step (Auth OpLogout "2024-03-05T11:00:00.000Z") a
  = Some (mkState (logout (session a)) None [c]).
Proof.
  intros c a.
  exact (proj1 (logout_discards_store_not_requests a c 0 ∅ "2024-03"
                  "n3wt0k3n" "2024-03-05T11:00:00.000Z"
                  "2024-03-06T09:00:00.000Z" eq_refl eq_refl)).
Defined.

End AppGate.

(** * Further properties of the dashboard store *)

Section StoreInvariants.
Import Dashboard.

(** ** Selecting a month *)

(** Selecting the month that is already selected sends nothing.  Selecting
    another one makes it the selection, raises the loading flag and sends
    four requests: the summary and the transactions of the new month, and
    the budgets and the months as well.  Until the replies arrive the
    store still holds the summary and the transactions it had. *)
Theorem selectMonth_refetches (st : Store) (month : string) :
  (month = currentMonth st ->
     turn (selectMonth month) st = (retotal st, [])) /\
  (month <> currentMonth st ->
     let st' := (turn (selectMonth month) st).1 in
     currentMonth st' = month /\
     loading st' = true /\
     sent (turn (selectMonth month) st).2 =
       [AwaitSummary month; AwaitTransactions month; AwaitBudgets;
        AwaitMonths month] /\
     summary st' = summary st /\
     transactions st' = transactions st /\
     budgets st' = budgets st /\
     tempBudgets st' = tempBudgets st).
Proof.
  split.
  - intros ->. rewrite turn_month_kept by reflexivity.
    destruct st; reflexivity.
  - intros Hne st'. subst st'. unfold turn, selectMonth. cbn.
    apply String.eqb_neq in Hne. rewrite Hne. cbn. repeat split.
Qed.

Lemma selectMonth_refetches_witness :
  sent (turn (selectMonth "2024-02")
             (initialStore "2024-03-05T10:00:00.000Z")).2 =
    [AwaitSummary "2024-02"; AwaitTransactions "2024-02"; AwaitBudgets;
     AwaitMonths "2024-02"].
Proof.
  refine (proj1 (proj2 (proj2
    (proj2 (selectMonth_refetches
              (initialStore "2024-03-05T10:00:00.000Z") "2024-02") _)))).
  discriminate.
Defined.

(** ** The loading flag *)

(** The loading flag is a flag, not a count.  When two summary requests
    are in flight and one of them is answered, in whatever way, the flag
    is lowered although the other request is still in flight. *)
Theorem loading_lowered_by_first_reply (c : Config) (i j : nat)
    (month month' : string) (r : Reply Summary) :
  inflight c !! i = Some (AwaitSummary month) ->
  inflight c !! j = Some (AwaitSummary month') ->
  i <> j ->
  exists c',
    step (Settle i (SummaryReply r)) c = Some c' /\
    loading (store c') = false /\
    AwaitSummary month' ∈ inflight c'.
Proof.
  intros Hi Hj Hij. unfold step. rewrite Hi. cbn [mbind option_bind resume].
  assert (currentMonth (fetchSummary_settled r (store c)).1
          = currentMonth (store c)) as Hm
    by (destruct r as [|status|[data|]]; reflexivity).
  rewrite (turn_month_kept _ _ Hm). eexists. split; [reflexivity|].
  cbn [store inflight]. split.
  - destruct r as [|status|[data|]]; reflexivity.
  - assert (sent (fetchSummary_settled r (store c)).2 = []) as ->
      by (destruct r as [|status|[data|]]; reflexivity).
    rewrite app_nil_r.
    destruct (decide (j < i)%nat) as [Hlt|Hge].
    + apply list_elem_of_lookup. exists j.
      rewrite list_lookup_delete_lt by exact Hlt. exact Hj.
    + apply list_elem_of_lookup. exists (pred j).
      rewrite list_lookup_delete_ge by lia.
      replace (S (pred j)) with j by lia. exact Hj.
Qed.

Lemma loading_lowered_by_first_reply_witness :
  exists c',
    step (Settle 0 (SummaryReply (NotOk 500)))
         (mkConfig (fetchSummary "2024-03"
                      (fetchSummary "2024-02"
                         (initialStore "2024-03-05T10:00:00.000Z")).1).1
                   [AwaitSummary "2024-02"; AwaitSummary "2024-03"] [])
      = Some c' /\
    loading (store c') = false /\
    AwaitSummary "2024-03" ∈ inflight c'.
Proof.
  refine (loading_lowered_by_first_reply _ 0 1 "2024-02" "2024-03"
            (NotOk 500) _ _ _).
  - reflexivity.
  - reflexivity.
  - discriminate.
Defined.

(** ** The budget inputs *)





Lemma step_changeDraft (c : Config) (category : string) (parsed : float) :
  exists c',
    step (ChangeDraft category parsed) c = Some c' /\
    budgets (store c') = budgets (store c) /\
    inflight c' = inflight c.
Proof.
  unfold step. cbn [onEvent]. rewrite turn_month_kept by reflexivity.
  eexists. split; [reflexivity|]. cbn. now rewrite app_nil_r.
Qed.

Lemma run_changeDrafts (edits : list (string * float)) : forall c : Config,
  exists c',
    run (map (fun e => ChangeDraft e.1 e.2) edits) c = Some c' /\
    budgets (store c') = budgets (store c) /\
    inflight c' = inflight c.
Proof.
  induction edits as [|[category parsed] edits IH]; intros c.
  - exists c. repeat split.
  - destruct (step_changeDraft c category parsed) as (c1 & H1 & Hb1 & Hi1).
    destruct (IH c1) as (c2 & H2 & Hb2 & Hi2).
    exists c2. cbn [map run fst snd]. rewrite H1. cbn.
    split; [exact H2|]. split; congruence.
Qed.

(** Cancel discards the draft.  Opening the editor, typing any number of
    amounts and pressing Cancel leaves the draft equal to the confirmed
    budgets, the confirmed budgets as they were, the editor closed, and no
    request sent. *)
Theorem cancelBudgetEdit_discards_draft (c : Config)
    (edits : list (string * float)) :
  exists c',
    run (BeginBudgetEdit ::
         map (fun e => ChangeDraft e.1 e.2) edits ++ [CancelBudgetEdit]) c
      = Some c' /\
    tempBudgets (store c') = budgets (store c) /\
    budgets (store c') = budgets (store c) /\
    editingBudgets (store c') = false /\
    inflight c' = inflight c.
Proof.
  assert (forall c0 c1 evs, run evs c0 = Some c1 ->
            forall evs' , run (evs ++ evs') c0 = run evs' c1) as Happ.
  { clear. intros c0 c1 evs. revert c0.
    induction evs as [|e evs IH]; intros c0 H evs'.
    - injection H as ->. reflexivity.
    - cbn [run app] in *. destruct (step e c0) as [c2|]; [|discriminate].
      cbn in *. now apply IH. }
  cbn [run]. unfold step at 1. cbn [onEvent].
  rewrite turn_month_kept by reflexivity. cbn [mbind option_bind].
  set (c0 := mkConfig _ _ _).
  destruct (run_changeDrafts edits c0) as (c1 & H1 & Hb1 & Hi1).
  rewrite (Happ _ _ _ H1). cbn [run]. unfold step. cbn [onEvent].
  rewrite turn_month_kept by reflexivity. cbn [mbind option_bind].
  eexists. split; [reflexivity|]. cbn. rewrite Hb1, Hi1. subst c0. cbn.
  now rewrite !app_nil_r.
Qed.




(** ** Confirmed category edits *)

(** The store after a confirmed category edit. *)
Lemma confirmed_edit_transactions (st : Store) (transactionId : Z)
    (newCategory closureMonth : string) :
  transactions
    (turn (updateTransactionCategory_settled transactionId newCategory
             closureMonth (Ok200 (Some (mkWriteResult true)))) st).1
  = map (fun t => if (ID t =? transactionId)%Z
                  then withCategory newCategory t else t)
        (transactions st).
Proof. rewrite turn_month_kept by reflexivity. reflexivity. Qed.

(** A confirmed edit rewrites categories and nothing else.  The list
    keeps its length and order, and each transaction keeps its id, date,
    name, amount and account; its category is the new one if it has the
    edited id and its own otherwise.  So an edit of an id that no
    transaction has, or to the category the transaction already has (the
    check button of a row), leaves the list as it is. *)
Theorem confirmed_edit_rewrites_category_only (st : Store)
    (transactionId : Z) (newCategory closureMonth : string) :
  let st' :=
    (turn (updateTransactionCategory_settled transactionId newCategory
             closureMonth (Ok200 (Some (mkWriteResult true)))) st).1 in
  Forall2 (fun t t' =>
             ID t' = ID t /\ Date t' = Date t /\
             Transaction_Name t' = Transaction_Name t /\
             Amount t' = Amount t /\ Account_Type t' = Account_Type t /\
             Category t' = if (ID t =? transactionId)%Z then newCategory
                           else Category t)
          (transactions st) (transactions st') /\
  (Forall (fun t => ID t <> transactionId) (transactions st) ->
     transactions st' = transactions st) /\
  (Forall (fun t => ID t = transactionId -> Category t = newCategory)
          (transactions st) ->
     transactions st' = transactions st).
Proof.
  cbn zeta. rewrite confirmed_edit_transactions.
  induction (transactions st) as [|t l (IH1 & IH2 & IH3)].
  - repeat split; constructor.
  - cbn [map]. split; [|split].
    + constructor; [|exact IH1].
      destruct (ID t =? transactionId)%Z; repeat split.
    + intros Hall. inversion Hall as [|? ? Ht Hl]; subst.
      apply Z.eqb_neq in Ht. rewrite Ht. f_equal. now apply IH2.
    + intros Hall. inversion Hall as [|? ? Ht Hl]; subst.
      rewrite (IH3 Hl). f_equal.
      destruct (ID t =? transactionId)%Z eqn:E; [|reflexivity].
      apply Z.eqb_eq in E. specialize (Ht E). destruct t; cbn in *.
      now subst.
Qed.

Lemma confirmed_edit_rewrites_category_only_witness :
  let bookshop :=
    mkTransaction 7 "2024-03-02" "Bookshop" "Shopping" (inr 25.5%float)
                  "credit" in
  let st := (fetchTransactions_settled (Ok200 (Some [bookshop]))
               (initialStore "2024-03-05T10:00:00.000Z")).1 in
  transactions
    (turn (updateTransactionCategory_settled 8 "Travel" "2024-03"
             (Ok200 (Some (mkWriteResult true)))) st).1
  = transactions st.
Proof.
  intros bookshop st.
  refine (proj1 (proj2
    (confirmed_edit_rewrites_category_only st 8 "Travel" "2024-03")) _).
  repeat constructor. discriminate.
Defined.

(** Confirmed edits of different transactions do not get in each other's
    way: each is applied to the list as it is when its reply arrives, so
    both take effect and the order of the replies does not matter.  Two
    edits of the same transaction end on the category of the reply that
    arrives last. *)
Theorem confirmed_edits_compose (st : Store) (id1 id2 : Z)
    (cat1 cat2 month1 month2 : string) :
  let k1 := updateTransactionCategory_settled id1 cat1 month1
              (Ok200 (Some (mkWriteResult true))) in
  let k2 := updateTransactionCategory_settled id2 cat2 month2
              (Ok200 (Some (mkWriteResult true))) in
  (id1 <> id2 ->
     transactions (turn k2 (turn k1 st).1).1
     = transactions (turn k1 (turn k2 st).1).1) /\
  (id1 = id2 ->
     categoryOf id1 (transactions (turn k2 (turn k1 st).1).1)
     = (fun _ => cat2) <$> categoryOf id1 (transactions st)).
Proof.
  cbn zeta. rewrite !confirmed_edit_transactions. split.
  - intros Hne. rewrite !map_map. apply map_ext. intros t.
    destruct (ID t =? id1)%Z eqn:E1; destruct (ID t =? id2)%Z eqn:E2;
      cbn [ID withCategory]; rewrite ?E1, ?E2; try reflexivity.
    apply Z.eqb_eq in E1, E2. congruence.
  - intros <-. rewrite !categoryOf_recategorised.
    now destruct (categoryOf id1 (transactions st)).
Qed.

Lemma confirmed_edits_compose_witness :
  let bookshop :=
    mkTransaction 7 "2024-03-02" "Bookshop" "Shopping" (inr 25.5%float)
                  "credit" in
  let bakery :=
    mkTransaction 8 "2024-03-03" "Bakery" "Other" (inl "4.20") "debit" in
  let st := (fetchTransactions_settled (Ok200 (Some [bookshop; bakery]))
               (initialStore "2024-03-05T10:00:00.000Z")).1 in
  let k1 := updateTransactionCategory_settled 7 "Learning & Education"
              "2024-03" (Ok200 (Some (mkWriteResult true))) in
  let k2 := updateTransactionCategory_settled 8 "Groceries" "2024-03"
              (Ok200 (Some (mkWriteResult true))) in
  transactions (turn k2 (turn k1 st).1).1
  = transactions (turn k1 (turn k2 st).1).1.
Proof.
  intros bookshop bakery st k1 k2.
  refine (proj1 (confirmed_edits_compose st 7 8 "Learning & Education"
                   "Groceries" "2024-03" "2024-03") _).
  discriminate.
Defined.

End StoreInvariants.

(** * Properties of the charts and tables *)

Section ChartData.
Import Dashboard Charts.
Local Open Scope float_scope.

(** ** The pie chart *)

(** One slice per category, in the order of the summary, with the
    category as its name and the amount spent as its value.  The colour is
    that of the position modulo ten and is always defined; the category in
    position [i + 10], if there is one, gets the colour of the category in
    position [i]. *)
Theorem pieChartData_colours (summary : Summary) (i : nat)
    (category : string) (data : CategorySummary) :
  length (pieChartData summary) = length summary /\
  (summary !! i = Some (category, data) ->
   exists c,
     COLORS !! (i mod 10)%nat = Some c /\
     pieChartData summary !! i
       = Some (PieChartData.mk category (spent data) (Some c)) /\
     (is_Some (summary !! (i + 10)%nat) ->
      PieChartData.color <$> pieChartData summary !! (i + 10)%nat
        = Some (Some c))).
Proof.
  unfold pieChartData, Summary in *. split; [apply length_imap|]. intros Hi.
  assert (i mod 10 < length COLORS)%nat as Hlt
    by (change (length COLORS) with 10%nat; apply Nat.mod_upper_bound;
        discriminate).
  change (length COLORS) with 10%nat.
  apply lookup_lt_is_Some in Hlt. destruct Hlt as [c Hc].
  exists c. split; [exact Hc|]. split.
  - rewrite list_lookup_imap, Hi. cbn [fmap option_fmap option_map].
    now rewrite Hc.
  - intros [[category' data'] Hj]. rewrite list_lookup_imap, Hj.
    cbn [fmap option_fmap option_map PieChartData.color].
    replace ((i + 10) mod 10)%nat with (i mod 10)%nat
      by (now rewrite <- (Nat.Div0.mod_add i 1 10)).
    now rewrite Hc.
Qed.

Lemma pieChartData_colours_witness :
  exists c,
    COLORS !! (1 mod 10)%nat = Some c /\
    pieChartData [("Groceries", mkCategorySummary 120 300 180 40 3 false);
                  ("Travel", mkCategorySummary 80 100 20 80 1 false)]
      !! 1%nat
      = Some (PieChartData.mk "Travel" 80 (Some c)) /\
    (is_Some ([("Groceries", mkCategorySummary 120 300 180 40 3 false);
               ("Travel", mkCategorySummary 80 100 20 80 1 false)]
                !! (1 + 10)%nat) ->
     PieChartData.color <$>
       pieChartData [("Groceries", mkCategorySummary 120 300 180 40 3 false);
                     ("Travel", mkCategorySummary 80 100 20 80 1 false)]
         !! (1 + 10)%nat
       = Some (Some c)).
Proof.
  refine (proj2 (pieChartData_colours _ 1 "Travel"
                   (mkCategorySummary 80 100 20 80 1 false)) _).
  reflexivity.
Defined.

(** ** The bar chart *)

Lemma length_substring_0 (n : nat) : forall s : string,
  String.length (substring 0 n s) = Nat.min n (String.length s).
Proof.
  induction n as [|n IH]; intros [|a s]; cbn; try reflexivity.
  now rewrite IH.
Qed.

Lemma length_string_app (s1 s2 : string) :
  String.length (s1 +:+ s2) = (String.length s1 + String.length s2)%nat.
Proof.
  induction s1 as [|a s1 IH]; [reflexivity|].
  change (String a s1 +:+ s2) with (String a (s1 +:+ s2)).
  cbn [String.length]. now rewrite IH.
Qed.

Lemma substring_0_app (s1 s2 : string) :
  substring 0 (String.length s1) (s1 +:+ s2) = s1.
Proof.
  induction s1 as [|a s1 IH].
  - now destruct s2.
  - change (String a s1 +:+ s2) with (String a (s1 +:+ s2)).
    cbn [String.length substring]. now rewrite IH.
Qed.

Lemma lookup_map {A B : Type} (f : A -> B) (l : list A) (i : nat) :
  map f l !! i = f <$> l !! i.
Proof.
  revert i. induction l as [|x l IH]; intros [|i]; cbn; try reflexivity.
  apply IH.
Qed.

(** One bar per category, in the order of the summary, with its budget
    and the amount spent.  A name of at most ten characters is the label;
    a longer one is cut to its first ten characters followed by three
    dots, so that the label is then thirteen characters long, longer than
    a name of eleven or twelve.  The first ten characters of the label
    are always those of the name. *)
Theorem barChartData_labels (summary : Summary) (i : nat)
    (category : string) (data : CategorySummary) :
  length (barChartData summary) = length summary /\
  (summary !! i = Some (category, data) ->
   exists label,
     barChartData summary !! i
       = Some (BarChartData.mk label (budget data) (spent data)) /\
     (String.length category <= 10 -> label = category)%nat /\
     (10 < String.length category ->
        label = substring 0 10 category +:+ "..." /\
        String.length label = 13)%nat /\
     substring 0 10 label = substring 0 10 category).
Proof.
  unfold barChartData, Summary in *. split; [apply length_map|]. intros Hi.
  eexists. split; [rewrite lookup_map, Hi; reflexivity|].
  destruct (10 <? String.length category)%nat eqn:E.
  - apply Nat.ltb_lt in E.
    assert (String.length (substring 0 10 category) = 10%nat) as Hlen
      by (rewrite length_substring_0; lia).
    split; [lia|]. split.
    + intros _. split; [reflexivity|].
      rewrite length_string_app, Hlen. reflexivity.
    + rewrite <- Hlen at 1. apply substring_0_app.
  - apply Nat.ltb_ge in E. split; [reflexivity|]. split; [lia|reflexivity].
Qed.

Lemma barChartData_labels_witness :
  exists label,
    barChartData
      [("Dining & Restaurants", mkCategorySummary 80 100 20 80 1 false)]
      !! 0%nat
      = Some (BarChartData.mk label 100 80) /\
    (String.length "Dining & Restaurants" <= 10 ->
       label = "Dining & Restaurants")%nat /\
    (10 < String.length "Dining & Restaurants" ->
       label = substring 0 10 "Dining & Restaurants" +:+ "..." /\
       String.length label = 13)%nat /\
    substring 0 10 label = substring 0 10 "Dining & Restaurants".
Proof.
  refine (proj2 (barChartData_labels
                   [("Dining & Restaurants",
                     mkCategorySummary 80 100 20 80 1 false)]
                   0 "Dining & Restaurants"
                   (mkCategorySummary 80 100 20 80 1 false)) _).
  reflexivity.
Defined.

(** ** The category breakdown *)

(** Nothing is below [NaN]. *)
Lemma ltb_nan (c p : float) : is_nan p = true -> (c <? p) = false.
Proof.
  unfold is_nan. rewrite FloatAxioms.eqb_spec, FloatAxioms.ltb_spec.
  intros H. destruct (Prim2SF p) eqn:E;
    try (rewrite SFeqb_refl in H by discriminate; discriminate H).
  unfold SFltb. now destruct (Prim2SF c).
Qed.

Lemma ltb_not_leb (c p : float) :
  is_nan p = false -> is_nan c = false ->
  (c <? p) = true -> (p <=? c) = false.
Proof. intros Hp Hc H. now apply leb_false_ltb. Qed.

Lemma leb_not_ltb (c p : float) :
  is_nan p = false -> is_nan c = false ->
  (p <=? c) = true -> (c <? p) = false.
Proof.
  intros Hp Hc H. destruct (c <? p) eqn:E; [|reflexivity].
  apply (ltb_not_leb c p Hp Hc) in E. congruence.
Qed.

(** In a row of the category breakdown the text lags one band behind the
    bar.  Up to 70 percent both are green and above 100 percent both are
    red; above 70 and up to 90 the bar is yellow beside green text, and
    above 90 and up to 100 the bar is red beside yellow text.  At [NaN] the
    bar is red beside green text. *)
Theorem row_text_lags_behind_bar (data : CategorySummary) :
  let p := percentage_used data in
  (is_nan p = false ->
     ((p <=? 70) = true ->
        getProgressColor p = "bg-green-500" /\
        rowTextColor data = "text-green-600") /\
     ((70 <? p) = true -> (p <=? 90) = true ->
        getProgressColor p = "bg-yellow-500" /\
        rowTextColor data = "text-green-600") /\
     ((90 <? p) = true -> (p <=? 100) = true ->
        getProgressColor p = "bg-red-500" /\
        rowTextColor data = "text-yellow-600") /\
     ((100 <? p) = true ->
        getProgressColor p = "bg-red-500" /\
        rowTextColor data = "text-red-600")) /\
  (is_nan p = true ->
     getProgressColor p = "bg-red-500" /\
     rowTextColor data = "text-green-600").
Proof.
  cbn zeta. unfold rowTextColor, getProgressColor.
  set (p := percentage_used data). split.
  - intros Hnan.
    assert (forall c d : float, is_nan c = false -> is_nan d = false ->
              (d <=? c) = false -> (d <? p) = true -> (p <=? c) = false)
      as Hbelow.
    { intros c d Hc Hd Hdc Hdp. destruct (p <=? c) eqn:E; [|reflexivity].
      pose proof (ltb_leb_trans d p c Hdp E). congruence. }
    split; [|split; [|split]].
    + intros H70. rewrite H70.
      assert ((90 <? p) = false) as H90.
      { destruct (90 <? p) eqn:E; [|reflexivity].
        pose proof (Hbelow 70 90 eq_refl eq_refl eq_refl E). congruence. }
      assert ((100 <? p) = false) as H100.
      { destruct (100 <? p) eqn:E; [|reflexivity].
        pose proof (Hbelow 70 100 eq_refl eq_refl eq_refl E). congruence. }
      now rewrite H90, H100.
    + intros H70 H90.
      rewrite (ltb_not_leb 70 p Hnan eq_refl H70), H90.
      rewrite (leb_not_ltb 90 p Hnan eq_refl H90).
      assert ((100 <? p) = false) as H100.
      { destruct (100 <? p) eqn:E; [|reflexivity].
        pose proof (Hbelow 90 100 eq_refl eq_refl eq_refl E). congruence. }
      now rewrite H100.
    + intros H90 H100.
      rewrite (Hbelow 70 90 eq_refl eq_refl eq_refl H90).
      rewrite (ltb_not_leb 90 p Hnan eq_refl H90), H90.
      now rewrite (leb_not_ltb 100 p Hnan eq_refl H100).
    + intros H100. rewrite H100.
      rewrite (Hbelow 70 100 eq_refl eq_refl eq_refl H100).
      now rewrite (Hbelow 90 100 eq_refl eq_refl eq_refl H100).
  - intros Hnan. rewrite !(nan_leb p _ Hnan), !(ltb_nan _ p Hnan).
    split; reflexivity.
Qed.

Lemma row_text_lags_behind_bar_witness :
  getProgressColor 95 = "bg-red-500" /\
  rowTextColor (mkCategorySummary 95 100 5 95 4 false) = "text-yellow-600".
Proof.
  refine (proj1 (proj2 (proj2
    (proj1 (row_text_lags_behind_bar
              (mkCategorySummary 95 100 5 95 4 false)) _))) _ _);
    reflexivity.
Defined.

End ChartData.

(** * Properties of the file upload *)

Section FileUpload.
Import Dashboard Upload.

(** The upload and the store.  Without a file nothing happens.  With one,
    the loading flag is raised and the request closes over the month
    selected.  Whatever the reply, the turn that handles it ends with the
    flag lowered, raises exactly one alert, and leaves summary,
    transactions, budgets, draft, months and month selection as they
    were.  A reply whose body has a true [success] sends the summary, the
    transactions and the months requests for the month of the upload, and
    no budgets request, and the flag is lowered although the summary
    request is in flight; any other reply sends nothing. *)
Theorem upload_outcomes (st : Store) (accountType file closureMonth : string)
    (files : list string) (r : UploadReply) :
  handleFileUpload [] accountType st = (st, None) /\
  handleFileUpload (file :: files) accountType st
    = ((setLoading true st).1,
       Some (mkUploadPending file accountType (currentMonth st))) /\
  let k := handleFileUpload_settled closureMonth r in
  let st' := (turn k st).1 in
  (loading st' = false /\
   length (alerts (turn k st).2) = 1%nat /\
   summary st' = summary st /\ transactions st' = transactions st /\
   budgets st' = budgets st /\ tempBudgets st' = tempBudgets st /\
   availableMonths st' = availableMonths st /\
   currentMonth st' = currentMonth st) /\
  sent (turn k st).2 =
    match r with
    | ResponseOk (inr result) =>
        if UploadResult.success result
        then [AwaitSummary closureMonth; AwaitTransactions closureMonth;
              AwaitMonths closureMonth]
        else []
    | _ => []
    end.
Proof.
  split; [reflexivity|]. split; [reflexivity|]. cbn zeta.
  assert (currentMonth (handleFileUpload_settled closureMonth r st).1
          = currentMonth st) as Hm.
  { unfold handleFileUpload_settled.
    destruct (uploadOutcome r) as [message|[message|]]; reflexivity. }
  rewrite (turn_month_kept _ _ Hm).
  unfold handleFileUpload_settled.
  destruct r as [[message|]|status [message|error]|[message|result]];
    cbn [uploadOutcome]; try (split; [repeat split|reflexivity]).
  destruct (UploadResult.success result);
    (split; [repeat split|reflexivity]).
Qed.

(** What the user is told.  A confirmed upload reports the two counts of
    the reply, in decimal when they are integers of magnitude at most
    2^53, the range in which the numbers of the source are exact and
    print so.  A response that is not [ok] reports the [error] of its
    body if there is a non-empty one and the status code otherwise; an
    [ok] response without [success] reports its [error] or, failing that,
    an unknown error; a rejected request or an unreadable body reports
    the message thrown. *)
Theorem upload_alert_text (st : Store) (closureMonth message : string)
    (status : Z) (result : UploadResult.t) :
  let told r := alerts (handleFileUpload_settled closureMonth r st).2 in
  (UploadResult.success result = true ->
   (Z.abs (UploadResult.total_transactions result) <= 2 ^ 53)%Z ->
   (Z.abs (UploadResult.new_transactions result) <= 2 ^ 53)%Z ->
     told (ResponseOk (inr result)) =
       ["Success! Processed "
        +:+ pretty (UploadResult.total_transactions result)
        +:+ " transactions, added "
        +:+ pretty (UploadResult.new_transactions result)
        +:+ " new ones."]) /\
  (message <> "" ->
     told (ResponseNotOk status (inr (Some message)))
       = ["Upload failed: " +:+ message]) /\
  told (ResponseNotOk status (inr None))
    = ["Upload failed: HTTP error! Status: " +:+ pretty status] /\
  told (ResponseNotOk status (inr (Some "")))
    = ["Upload failed: HTTP error! Status: " +:+ pretty status] /\
  (UploadResult.success result = false ->
   UploadResult.error result = None ->
     told (ResponseOk (inr result))
       = ["Upload failed: Unknown error occurred"]) /\
  (UploadResult.success result = false ->
   UploadResult.error result = Some message -> message <> "" ->
     told (ResponseOk (inr result)) = ["Upload failed: " +:+ message]) /\
  told (FetchRejected (Some message)) = ["Upload failed: " +:+ message] /\
  told (ResponseNotOk status (inl message))
    = ["Upload failed: " +:+ message] /\
  told (ResponseOk (inl message)) = ["Upload failed: " +:+ message] /\
  told (FetchRejected None) = ["Upload failed with unknown error"].
Proof.
  cbn zeta. unfold handleFileUpload_settled. cbn [uploadOutcome or_else].
  repeat split.
  - intros -> _ _. reflexivity.
  - intros Hne. apply truthy_nonempty in Hne. now rewrite Hne.
  - intros -> ->. reflexivity.
  - intros -> -> Hne. cbn [or_else]. apply truthy_nonempty in Hne.
    now rewrite Hne.
Qed.

Lemma upload_alert_text_witness :
  alerts (handleFileUpload_settled "2024-03"
            (ResponseOk (inr (UploadResult.mk true 120 17 None)))
            (initialStore "2024-03-05T10:00:00.000Z")).2
  = ["Success! Processed 120 transactions, added 17 new ones."].
Proof.
  refine (proj1
    (upload_alert_text (initialStore "2024-03-05T10:00:00.000Z") "2024-03"
       "Unsupported bank format" 400
       (UploadResult.mk true 120 17 None)) _ _ _).
  - reflexivity.
  - vm_compute. discriminate.
  - vm_compute. discriminate.
Defined.

End FileUpload.
